(** * Blog-Post: the Flask blogging backend, embedded in Rocq

    The development follows [src/app/models.py] (the three tables and their
    column constraints) and [src/app/routes.py] (the twelve view functions).

    - Python values that cross a type boundary in the code (the JWT identity,
      integer columns) are [pyval]s, compared with Python's [==].
    - The three tables are finite maps from the primary key to the row.
    - A view function is a computation in [M]: it reads the request, reads and
      stages writes on the SQLAlchemy session, commits, and either returns a
      response or raises.  [serve] is what Flask does around it: an uncaught
      exception becomes a 500 page and the request's session is discarded.
    - Third-party functions ([validate_email], the werkzeug password hasher,
      the HMAC under the JWT) are the fields of the class [Externals]. *)

From Stdlib Require Import ZArith String Ascii DecimalString DecimalZ Lia.
From stdpp Require Import base option list gmap strings.

Local Open Scope Z_scope.
Local Open Scope string_scope.

(** ** Python values *)

Inductive pyval :=
| PNone
| PInt (n : Z)
| PStr (s : string).

(** Python's [==] on these values: an [int] never equals a [str]. *)
Definition py_eq (a b : pyval) : bool :=
  match a, b with
  | PNone, PNone => true
  | PInt m, PInt n => Z.eqb m n
  | PStr s, PStr t => String.eqb s t
  | _, _ => false
  end.

Definition py_ne (a b : pyval) : bool := negb (py_eq a b).

(** [str(n)] for an [int]: the decimal numeral, with a minus sign if negative. *)
Definition str (n : Z) : string := NilZero.string_of_int (Z.to_int n).

(** Truthiness of the result of [data.get(key)] for a string member:
    [None] and [""] are falsy. *)
Definition truthy (v : option string) : bool :=
  match v with
  | Some s => negb (String.eqb s "")
  | None => false
  end.

(** ** Text as the store takes it *)

(** A [str] that holds U+0000: the database driver refuses it as a query
    parameter. *)
Fixpoint has_nul (s : string) : bool :=
  match s with
  | EmptyString => false
  | String a s' => Ascii.eqb a Ascii.zero || has_nul s'
  end.

Fixpoint all_spaces (s : string) : bool :=
  match s with
  | EmptyString => true
  | String a s' => Ascii.eqb a " " && all_spaces s'
  end.

Fixpoint ends_with_space (s : string) : bool :=
  match s with
  | EmptyString => false
  | String a EmptyString => Ascii.eqb a " "
  | String _ s' => ends_with_space s'
  end.

(** The first [n] characters of [s], and what comes after them. *)
Fixpoint keep (n : nat) (s : string) : string :=
  match n, s with
  | S n', String a s' => String a (keep n' s')
  | _, _ => EmptyString
  end.

Fixpoint excess (n : nat) (s : string) : string :=
  match n, s with
  | S n', String _ s' => excess n' s'
  | _, _ => s
  end.

(** A value assigned to a [String(n)] column: stored as it is when it
    fits, cut to [n] characters when what exceeds them is only spaces,
    refused otherwise. *)
Definition varchar (n : nat) (s : string) : option string :=
  if Nat.leb (String.length s) n then Some s
  else if all_spaces (excess n s) then Some (keep n s)
  else None.
Arguments varchar : simpl never.

(** ** models.py *)

Module User.
Record t := mk {
  username : string;        (* String(500), unique, not null *)
  email : string;           (* String(500), unique, not null *)
  password_hash : string    (* String(500), not null *)
}.
End User.

Module Post.
Record t := mk {
  title : string;           (* String(100), not null *)
  content : string;         (* Text, not null *)
  created_at : Z;
  updated_at : Z;
  author_id : Z             (* ForeignKey user.id, not null *)
}.
End Post.

Module Comment.
Record t := mk {
  content : string;         (* Text, not null *)
  created_at : Z;
  post_id : Z;              (* ForeignKey post.id, not null *)
  author_id : Z             (* ForeignKey user.id, not null *)
}.
End Comment.

(** The stored rows, each table keyed by its integer primary key [id]. *)
Record database := mkdb {
  users : gmap Z User.t;
  posts : gmap Z Post.t;
  comments : gmap Z Comment.t
}.

(** ** Exceptions *)

Inductive exn :=
| KeyError (key : string)
| AttributeError
| UnsupportedMediaType
| IntegrityError (constraint : string)
| DataError (column : string)
| OperationalError
| ValueError
| ProgrammingError.

(** ** Tokens *)

Record token := mktoken {
  sub : pyval;
  exp : Z;
  signature : string
}.

Inductive AuthError := Expired | Invalid | Missing.

(** ** Third-party functions *)

Class Externals := {
  (** email_validator: [None] when the address is accepted, [Some msg] when
      [EmailNotValidError(msg)] is raised. *)
  validate_email : string -> option string;
  (** werkzeug.security; the first argument of the generator is the salt. *)
  generate_password_hash : string -> string -> string;
  check_password_hash : string -> string -> bool;
  (** The keyed signature over a token's claims, and the process-wide key
      ([app.config["SECRET_KEY"]]). *)
  hmac : string -> pyval -> Z -> string;
  SECRET_KEY : string;
  (** JWT_ACCESS_TOKEN_EXPIRES, in seconds. *)
  ACCESS_EXPIRES : Z;
  (** [str(e)] for an exception. *)
  exn_str : exn -> string;
  (** email_validator accepts no address that ends with a space. *)
  validate_email_trimmed :
    forall s, validate_email s = None -> ends_with_space s = false
}.

(** ** Requests, responses *)

(** A JSON object body: its string members, and its integer member
    ["post_id"] when it has one. *)
Record body := mkbody {
  members : gmap string string;
  body_post_id : option Z
}.

Record request := mkreq {
  authorization : option token;   (* the bearer token of the header *)
  json : option body              (* [None]: the request is not JSON *)
}.

(** What the outside world contributes to one request: the clock, the salt
    drawn by the hasher, the value the id sequence of the written table hands
    out, and whether the store is unreachable at commit. *)
Record env := mkenv {
  now : Z;
  salt : string;
  nextval : Z;
  store_down : bool
}.

Record ctx := mkctx {
  req : request;
  world : env;
  jwt_identity : pyval
}.

#[warnings="-register-all"]
Inductive jvalue :=
| JStr (s : string)
| JInt (n : Z)
| JDate (t : Z)
| JToken (t : token)
| JObj (fields : list (string * jvalue)).

Inductive content :=
| jsonify (j : jvalue)
| error_page.

Definition response : Type := content * Z.

Definition status (r : response) : Z := snd r.

(** ** The session *)

(** A change staged on [db.session] and not yet flushed. *)
Inductive write :=
| Add_User (username email password_hash : string)
| Add_Post (title content : string) (author_id : pyval)
| Add_Comment (content : string) (post_id : Z) (author_id : pyval)
| Delete_Post (id : Z)
| Delete_Comment (id : Z)
| Set_Post_title (id : Z) (v : string)
| Set_Post_content (id : Z) (v : string)
| Set_Comment_content (id : Z) (v : string).

Record state := mkstate {
  db : database;
  session : list write;
  (** Set when [db.session.commit()] raised during this request. *)
  commit_failed : bool
}.

(** ** The monad of view functions *)

Definition M (A : Type) : Type := ctx -> state -> (exn + A) * state.

Definition ret {A} (a : A) : M A := fun _ st => (inr a, st).

Definition bind {A B} (m : M A) (k : A -> M B) : M B :=
  fun c st =>
    match m c st with
    | (inr a, st') => k a c st'
    | (inl e, st') => (inl e, st')
    end.

Definition raise {A} (e : exn) : M A := fun _ st => (inl e, st).

(** [try: m  except Exception as e: h e] *)
Definition try_except {A} (m : M A) (h : exn -> M A) : M A :=
  fun c st =>
    match m c st with
    | (inr a, st') => (inr a, st')
    | (inl e, st') => h e c st'
    end.

Declare Scope view_scope.
Delimit Scope view_scope with view.
Notation "x <- m ;; k" := (bind m (fun x => k))
  (at level 100, m at next level, right associativity) : view_scope.
Notation "m ;;; k" := (bind m (fun _ => k))
  (at level 100, right associativity) : view_scope.
Local Open Scope view_scope.

Definition ask : M ctx := fun c st => (inr c, st).

(** ** The store: queries *)

(** [Model.query.get(id)] *)
Definition Post_query_get (id : Z) : M (option Post.t) :=
  fun _ st => (inr (posts (db st) !! id), st).

Definition Comment_query_get (id : Z) : M (option Comment.t) :=
  fun _ st => (inr (comments (db st) !! id), st).

(** [Model.query.filter(P).first()]: a row satisfying [P], with its key. *)
Definition query_first {A} (P : A -> Prop) `{!forall x, Decision (P x)}
    (m : gmap Z A) : option (Z * A) :=
  snd <$> list_find (fun kv => P (snd kv)) (map_to_list m).

(** [User.query.filter_by(username=name).first()].  The driver refuses a
    parameter that holds U+0000 ([ValueError]); the store holds no such
    text, so a name that a stored row has is not one it refuses. *)
Definition User_query_filter_by_username (name : string) : M (option (Z * User.t)) :=
  fun _ st =>
    match query_first (fun u => User.username u = name) (users (db st)) with
    | Some row => (inr (Some row), st)
    | None => if has_nul name then (inl ValueError, st) else (inr None, st)
    end.

(** The lazy relationship [.author] of a post or comment. *)
Definition author_of (author_id : Z) : M User.t :=
  fun _ st =>
    match users (db st) !! author_id with
    | Some u => (inr u, st)
    | None => (inl AttributeError, st)
    end.

(** ** The store: constraints checked when a write is flushed *)

Definition found {A} (o : option A) : bool :=
  match o with
  | Some _ => true
  | None => false
  end.

(** A parameter the driver refuses. *)
Definition py_has_nul (v : pyval) : bool :=
  match v with
  | PStr s => has_nul s
  | _ => false
  end.

(** The store's input conversion of a decimal numeral for an integer column. *)
Definition int4in (s : string) : option Z := Z.of_int <$> NilZero.int_of_string s.

(** A Python value bound to a non-null integer column.  A [str] reaches the
    store as a literal and is converted on input: this is how the string
    identity of a token becomes the integer [author_id] of a new post or
    comment. *)
Definition to_integer (column : string) (v : pyval) : exn + Z :=
  match v with
  | PInt n => inr n
  | PStr s => match int4in s with
              | Some n => inr n
              | None => inl (DataError column)
              end
  | PNone => inl (IntegrityError column)
  end.

Definition set_users (d : database) (m : gmap Z User.t) : database :=
  mkdb m (posts d) (comments d).
Definition set_posts (d : database) (m : gmap Z Post.t) : database :=
  mkdb (users d) m (comments d).
Definition set_comments (d : database) (m : gmap Z Comment.t) : database :=
  mkdb (users d) (posts d) m.

(** One staged write against the stored rows.  The driver first refuses a
    text parameter that holds U+0000.  The other checks are the column
    declarations of models.py: lengths (with the cut of trailing spaces of
    [varchar]), uniqueness, foreign keys, primary keys.  An attribute
    assigned the value it already had sends no UPDATE.  The two assignments
    of [update_post] are two writes, checked in that order, though they
    reach the store in one UPDATE: when both are refused, the exception
    reported here is the title's.  Deleting a post
    un-links its comments first (the relationship [Post.comments] has no
    delete cascade), which the non-null foreign key [Comment.post_id]
    refuses. *)
Definition flush_one (e : env) (d : database) (w : write) : exn + database :=
  match w with
  | Add_User name mail hash =>
      if has_nul name || has_nul mail || has_nul hash then inl ValueError
      else
        match varchar 500 name with
        | None => inl (DataError "username")
        | Some name' =>
            match varchar 500 mail with
            | None => inl (DataError "email")
            | Some mail' =>
                match varchar 500 hash with
                | None => inl (DataError "password_hash")
                | Some hash' =>
                    if found (query_first (fun u => User.username u = name') (users d))
                    then inl (IntegrityError "user.username")
                    else if found (query_first (fun u => User.email u = mail') (users d))
                    then inl (IntegrityError "user.email")
                    else if found (users d !! nextval e)
                    then inl (IntegrityError "user.id")
                    else inr (set_users d
                           (<[nextval e := User.mk name' mail' hash']> (users d)))
                end
            end
        end
  | Add_Post title content author =>
      if has_nul title || has_nul content || py_has_nul author then inl ValueError
      else
        match varchar 100 title with
        | None => inl (DataError "title")
        | Some title' =>
            match to_integer "author_id" author with
            | inl x => inl x
            | inr a =>
                if found (users d !! a) then
                  if found (posts d !! nextval e) then inl (IntegrityError "post.id")
                  else inr (set_posts d
                         (<[nextval e := Post.mk title' content (now e) (now e) a]>
                            (posts d)))
                else inl (IntegrityError "post.author_id")
            end
        end
  | Add_Comment content post author =>
      if has_nul content || py_has_nul author then inl ValueError
      else
        match to_integer "author_id" author with
        | inl x => inl x
        | inr a =>
            if found (posts d !! post) then
              if found (users d !! a) then
                if found (comments d !! nextval e) then inl (IntegrityError "comment.id")
                else inr (set_comments d
                       (<[nextval e := Comment.mk content (now e) post a]> (comments d)))
              else inl (IntegrityError "comment.author_id")
            else inl (IntegrityError "comment.post_id")
        end
  | Delete_Post id =>
      if found (query_first (fun c => Comment.post_id c = id) (comments d))
      then inl (IntegrityError "comment.post_id")
      else inr (set_posts d (delete id (posts d)))
  | Delete_Comment id =>
      inr (set_comments d (delete id (comments d)))
  | Set_Post_title id v =>
      match posts d !! id with
      | Some p =>
          if String.eqb (Post.title p) v then inr d
          else if has_nul v then inl ValueError
          else match varchar 100 v with
               | None => inl (DataError "title")
               | Some v' =>
                   inr (set_posts d
                          (<[id := Post.mk v' (Post.content p) (Post.created_at p) (now e)
                                     (Post.author_id p)]> (posts d)))
               end
      | None => inr d
      end
  | Set_Post_content id v =>
      match posts d !! id with
      | Some p =>
          if String.eqb (Post.content p) v then inr d
          else if has_nul v then inl ValueError
          else inr (set_posts d
                 (<[id := Post.mk (Post.title p) v (Post.created_at p) (now e)
                            (Post.author_id p)]> (posts d)))
      | None => inr d
      end
  | Set_Comment_content id v =>
      match comments d !! id with
      | Some c =>
          if String.eqb (Comment.content c) v then inr d
          else if has_nul v then inl ValueError
          else inr (set_comments d
                 (<[id := Comment.mk v (Comment.created_at c) (Comment.post_id c)
                            (Comment.author_id c)]> (comments d)))
      | None => inr d
      end
  end.

Fixpoint flush (e : env) (d : database) (ws : list write) : exn + database :=
  match ws with
  | [] => inr d
  | w :: ws' =>
      match flush_one e d w with
      | inr d' => flush e d' ws'
      | inl x => inl x
      end
  end.

(** ** The session: add, delete, attribute assignment, commit, rollback *)

Definition stage (w : write) : M unit :=
  fun _ st => (inr tt, mkstate (db st) (session st ++ [w]) (commit_failed st)).

(** [db.session.commit()]: the staged writes reach the store together or not
    at all. *)
Definition session_commit : M unit :=
  fun c st =>
    if store_down (world c) then (inl OperationalError, mkstate (db st) (session st) true)
    else match flush (world c) (db st) (session st) with
         | inr d' => (inr tt, mkstate d' [] (commit_failed st))
         | inl x => (inl x, mkstate (db st) (session st) true)
         end.

Definition session_rollback : M unit :=
  fun _ st => (inr tt, mkstate (db st) [] (commit_failed st)).

(** ** Reading the request *)

(** [request.get_json()] *)
Definition get_json : M body :=
  fun c st =>
    match json (req c) with
    | Some data => (inr data, st)
    | None => (inl UnsupportedMediaType, st)
    end.

(** [data.get(key)] *)
Definition get (data : body) (key : string) : option string := members data !! key.

(** [data[key]] *)
Definition index (data : body) (key : string) : M string :=
  match members data !! key with
  | Some v => ret v
  | None => raise (KeyError key)
  end.

(** [data["post_id"]] *)
Definition index_post_id (data : body) : M Z :=
  match body_post_id data with
  | Some v => ret v
  | None => raise (KeyError "post_id")
  end.

(** [key in data] *)
Definition has_key (data : body) (key : string) : bool :=
  if String.eqb key "post_id" then bool_decide (is_Some (body_post_id data))
  else bool_decide (is_Some (members data !! key)).

(** [get_jwt_identity()] *)
Definition get_jwt_identity : M pyval := fun c st => (inr (jwt_identity c), st).

Definition message (s : string) : content := jsonify (JObj [("message", JStr s)]).

Definition text (v : option string) : string := default "" v.

Section Routes.
Context `{Externals}.

(** ** Token issuer and verifier, authorization guard *)

(** Modelled from the spec: the token issuer behind [create_access_token]
    (flask_jwt_extended, not under src/).  [issue(user_id) -> token] produces
    a signed token embedding the user id and an expiry timestamp. *)
Definition issue (clock : Z) (user_id : pyval) : token :=
  let expiry := clock + ACCESS_EXPIRES in
  mktoken user_id expiry (hmac SECRET_KEY user_id expiry).

(** Modelled from the spec: the token verifier behind [@jwt_required()]
    (flask_jwt_extended, not under src/).  [verify(token) -> user_id |
    AuthError] fails with [Invalid] when the signature does not match and
    with [Expired] when past expiry. *)
Definition verify (clock : Z) (t : token) : AuthError + pyval :=
  if negb (String.eqb (signature t) (hmac SECRET_KEY (sub t) (exp t)))
  then inl Invalid
  else if (exp t <? clock)%Z then inl Expired
  else inr (sub t).

(** [create_access_token(identity=...)] *)
Definition create_access_token (ident : pyval) : M token :=
  fun c st => (inr (issue (now (world c)) ident), st).

Definition auth_error_msg (e : AuthError) : string :=
  match e with
  | Expired => "Token has expired"
  | Invalid => "Signature verification failed"
  | Missing => "Missing Authorization Header"
  end.

(** Modelled from the spec: the guard [@jwt_required()] (flask_jwt_extended,
    not under src/) extracts the bearer token and verifies it; on failure it
    short-circuits with a 401 response and does not invoke the handler; on
    success the resolved identity is the current identity of the handler. *)
Definition jwt_required (view : M response) : M response :=
  fun c st =>
    match authorization (req c) with
    | None => (inr (jsonify (JObj [("msg", JStr (auth_error_msg Missing))]), 401), st)
    | Some t =>
        match verify (now (world c)) t with
        | inl err => (inr (jsonify (JObj [("msg", JStr (auth_error_msg err))]), 401), st)
        | inr current => view (mkctx (req c) (world c) current) st
        end
    end.

(** ** routes.py *)

Definition register_user : M response :=
  data <- get_json ;;
  if negb (truthy (get data "username")) || negb (truthy (get data "email"))
     || negb (truthy (get data "password"))
  then ret (message "Missing required fields: username, email, or password", 400)
  else
    try_except
      (mail <- index data "email" ;;
       match validate_email mail with
       | Some e => ret (message (String.append "Invalid email address: " e), 400)
       | None =>
           name <- index data "username" ;;
           user <- User_query_filter_by_username name ;;
           if found user then ret (message "Username already exists!", 400)
           else
             password <- index data "password" ;;
             c <- ask ;;
             let hashed_password := generate_password_hash (salt (world c)) password in
             stage (Add_User name mail hashed_password) ;;;
             session_commit ;;;
             ret (message "User created successfully!", 201)
       end)
      (fun e =>
         session_rollback ;;;
         ret (jsonify (JObj [("message", JStr "Internal Server Error");
                             ("error", JStr (exn_str e))]), 500)).

Definition login_user : M response :=
  c <- ask ;;
  match json (req c) with
  | None => ret (message "Missing JSON in request", 400)
  | Some data =>
      if negb (has_key data "username" && has_key data "password")
      then ret (message "Missing 'username' or 'password' field", 400)
      else
        name <- index data "username" ;;
        user <- User_query_filter_by_username name ;;
        match user with
        | Some (id, u) =>
            password <- index data "password" ;;
            if check_password_hash (User.password_hash u) password then
              access_token <- create_access_token (PStr (str id)) ;;
              ret (jsonify (JObj [("access_token", JToken access_token)]), 200)
            else ret (message "Invalid credentials", 401)
        | None => ret (message "Invalid credentials", 401)
        end
  end.

Definition create_post : M response :=
  jwt_required
    (data <- get_json ;;
     if negb (truthy (get data "title")) || negb (truthy (get data "content"))
     then ret (message "Title and content are required!", 400)
     else
       current_user_id <- get_jwt_identity ;;
       try_except
         (title <- index data "title" ;;
          content <- index data "content" ;;
          stage (Add_Post title content current_user_id) ;;;
          session_commit ;;;
          ret (message "Post created successfully!", 201))
         (fun e =>
            ret (jsonify (JObj [("message", JStr "Error creating post");
                                ("error", JStr (exn_str e))]), 500))).

Definition post_json (id : Z) (post : Post.t) (author : User.t) : jvalue :=
  JObj [("id", JInt id);
        ("title", JStr (Post.title post));
        ("content", JStr (Post.content post));
        ("author", JStr (User.username author));
        ("created_at", JDate (Post.created_at post));
        ("updated_at", JDate (Post.updated_at post))].

Definition get_post (id : Z) : M response :=
  post <- Post_query_get id ;;
  match post with
  | Some p =>
      author <- author_of (Post.author_id p) ;;
      ret (jsonify (post_json id p author), 200)
  | None => ret (message "Post not found!", 404)
  end.

(** The attributes of [post] read after the commit are loaded again. *)
Definition refreshed_post (id : Z) : M Post.t :=
  post <- Post_query_get id ;;
  match post with
  | Some p => ret p
  | None => raise AttributeError
  end.

Definition update_post (id : Z) : M response :=
  jwt_required
    (data <- get_json ;;
     let title := get data "title" in
     let content := get data "content" in
     if negb (truthy title) || negb (truthy content)
     then ret (message "Title and content are required!", 400)
     else
       post <- Post_query_get id ;;
       match post with
       | None => ret (message "Post not found!", 404)
       | Some _ =>
           stage (Set_Post_title id (text title)) ;;;
           stage (Set_Post_content id (text content)) ;;;
           try_except
             (session_commit ;;;
              p <- refreshed_post id ;;
              author <- author_of (Post.author_id p) ;;
              ret (jsonify (JObj [("message", JStr "Post updated successfully!");
                                  ("post", post_json id p author)]), 200))
             (fun e =>
                session_rollback ;;;
                ret (jsonify (JObj [("message", JStr "Error updating post");
                                    ("error", JStr (exn_str e))]), 500))
       end).

Definition delete_post (id : Z) : M response :=
  jwt_required
    (post <- Post_query_get id ;;
     match post with
     | None => ret (message "Post not found!", 404)
     | Some _ =>
         stage (Delete_Post id) ;;;
         session_commit ;;;
         ret (message "Post deleted successfully!", 200)
     end).

Definition create_comment : M response :=
  jwt_required
    (data <- get_json ;;
     current_user_id <- get_jwt_identity ;;
     wanted <- index_post_id data ;;
     post <- Post_query_get wanted ;;
     match post with
     | None => ret (message "Post not found", 404)
     | Some _ =>
         content <- index data "content" ;;
         post_id <- index_post_id data ;;
         stage (Add_Comment content post_id current_user_id) ;;;
         session_commit ;;;
         ret (message "Comment created successfully!", 201)
     end).

Definition get_single_comment (id : Z) : M response :=
  comment <- Comment_query_get id ;;
  match comment with
  | None => ret (message "Comment not found!", 404)
  | Some c =>
      author <- author_of (Comment.author_id c) ;;
      ret (jsonify (JObj [("id", JInt id);
                          ("content", JStr (Comment.content c));
                          ("author", JStr (User.username author));
                          ("created_at", JDate (Comment.created_at c))]), 200)
  end.

Definition update_comment (id : Z) : M response :=
  jwt_required
    (data <- get_json ;;
     comment <- Comment_query_get id ;;
     match comment with
     | None => ret (message "Comment not found!", 404)
     | Some c =>
         current_user_id <- get_jwt_identity ;;
         if py_ne (PInt (Comment.author_id c)) current_user_id
         then ret (message "You are not authorized to update this comment!", 403)
         else
           stage (Set_Comment_content id (default (Comment.content c) (get data "content"))) ;;;
           session_commit ;;;
           ret (message "Comment updated successfully!", 200)
     end).

Definition delete_comment (id : Z) : M response :=
  jwt_required
    (comment <- Comment_query_get id ;;
     match comment with
     | None => ret (message "Comment not found!", 404)
     | Some c =>
         current_user_id <- get_jwt_identity ;;
         if py_ne (PInt (Comment.author_id c)) current_user_id
         then ret (message "You are not authorized to delete this comment!", 403)
         else
           stage (Delete_Comment id) ;;;
           session_commit ;;;
           ret (message "Comment deleted successfully!", 200)
     end).

(** ** One request, as Flask serves it *)

(** The view function runs on a session that starts empty. *)
Definition run (view : M response) (r : request) (w : env) (d : database)
  : (exn + response) * state :=
  view (mkctx r w PNone) (mkstate d [] false).

(** An exception that leaves the view function becomes an error response:
    415 for [UnsupportedMediaType], the generic 500 page for any other. *)
Definition respond (o : exn + response) : response :=
  match o with
  | inr r => r
  | inl UnsupportedMediaType => (error_page, 415)
  | inl _ => (error_page, 500)
  end.

(** The response sent and the rows stored once the request is over; the
    session is removed, and with it whatever was staged and not committed. *)
Definition serve (view : M response) (r : request) (w : env) (d : database)
  : response * database :=
  let '(o, st) := run view r w d in (respond o, db st).

(** The seven mutating operations. *)
Inductive mutation :=
| Register
| CreatePost
| UpdatePost (id : Z)
| DeletePost (id : Z)
| CreateComment
| UpdateComment (id : Z)
| DeleteComment (id : Z).

Definition route (m : mutation) : M response :=
  match m with
  | Register => register_user
  | CreatePost => create_post
  | UpdatePost id => update_post id
  | DeletePost id => delete_post id
  | CreateComment => create_comment
  | UpdateComment id => update_comment id
  | DeleteComment id => delete_comment id
  end.

End Routes.

(** ** register_user and login_user on any JSON scalars

    The two view functions again, on a body whose members are any of
    [null], a number or a string ([pyval]); [data] is the result of
    [request.get_json()].  On a body whose members are all strings they
    are the functions above. *)







Section Raw.
Context `{Externals}.






End Raw.

(** ** A concrete deployment, to run the view functions on

    Stand-ins for the third-party functions, and the requests of the
    scenario of the specification: alice registers, logs in, writes a post
    and a comment. *)
Module Demo.

Fixpoint has_at (s : string) : bool :=
  match s with
  | EmptyString => false
  | String a s' => Ascii.eqb a "@" || has_at s'
  end.

Definition pyval_text (v : pyval) : string :=
  match v with
  | PNone => "None"
  | PInt n => str n
  | PStr s => s
  end.

(** The part of a stored hash after its first ["$"]. *)
Fixpoint after_dollar (h : string) : string :=
  match h with
  | EmptyString => EmptyString
  | String a h' => if Ascii.eqb a "$" then h' else after_dollar h'
  end.

Definition validator (s : string) : option string :=
  if negb (has_at s) then Some "no @-sign"
  else if ends_with_space s then Some "trailing space"
  else None.

#[export] Instance externals : Externals := {|
  validate_email := validator;
  generate_password_hash := fun salt pw => String.append salt (String.append "$" pw);
  check_password_hash := fun h pw => String.eqb (after_dollar h) pw;
  hmac := fun key v e =>
    String.append key (String.append ":" (String.append (pyval_text v)
      (String.append ":" (str e))));
  SECRET_KEY := "0123456789abcdef";
  ACCESS_EXPIRES := 900;
  exn_str := fun e =>
    match e with
    | KeyError k => k
    | AttributeError => "AttributeError"
    | UnsupportedMediaType => "UnsupportedMediaType"
    | IntegrityError c => String.append "IntegrityError: " c
    | DataError c => String.append "DataError: " c
    | OperationalError => "OperationalError"
    | ValueError => "ValueError"
    | ProgrammingError => "ProgrammingError"
    end;
  validate_email_trimmed :=
    ltac:(intros s; unfold validator; destruct (has_at s); cbn;
          [destruct (ends_with_space s); [discriminate|reflexivity]|discriminate])
|}.

Definition empty_db : database := mkdb ∅ ∅ ∅.

Fixpoint letters (n : nat) : string :=
  match n with
  | O => EmptyString
  | S n' => String "a" (letters n')
  end.

(** A title of 101 characters. *)
Definition long_title : string := letters 101.

(** 100 letters and a space; 500 letters and a space. *)
Definition padded_title : string := String.append (letters 100) " ".
Definition padded_name : string := String.append (letters 500) " ".

Definition obj (kvs : list (string * string)) : body := mkbody (list_to_map kvs) None.


Definition anonymous (data : body) : request := mkreq None (Some data).
Definition bearer (t : token) (data : body) : request := mkreq (Some t) (Some data).
Definition bearer_no_body (t : token) : request := mkreq (Some t) None.

Definition at_time (clock id : Z) : env := mkenv clock "s1" id false.

(** register alice, register bob *)
Definition db1 : database :=
  snd (serve register_user
         (anonymous (obj [("username", "alice"); ("email", "a@x.com"); ("password", "pw1")]))
         (at_time 100 1) empty_db).
Definition db2 : database :=
  snd (serve register_user
         (anonymous (obj [("username", "bob"); ("email", "b@x.com"); ("password", "pw2")]))
         (at_time 101 2) db1).

(** The token in the body of a login response. *)
Definition token_of (r : response) : option token :=
  match fst r with
  | jsonify (JObj [(_, JToken t)]) => Some t
  | _ => None
  end.

Definition login_as (name password : string) (clock : Z) (d : database) : response :=
  fst (serve login_user
         (anonymous (obj [("username", name); ("password", password)]))
         (at_time clock 0) d).

Definition alice_token : token := issue 110 (PStr "1").
Definition bob_token : token := issue 111 (PStr "2").

(** alice writes post 1 and comment 1 on it *)
Definition db3 : database :=
  snd (serve create_post
         (bearer alice_token (obj [("title", "t1"); ("content", "c1")]))
         (at_time 120 1) db2).
Definition db4 : database :=
  snd (serve create_comment
         (bearer alice_token (mkbody {[ "content" := "nice" ]} (Some 1)))
         (at_time 130 1) db3).

End Demo.

(** ** Vocabulary of the statements *)

Section Vocabulary.
Context `{Externals}.

(** A request is authenticated when its bearer token verifies. *)
Definition authenticated (r : request) (w : env) (current : pyval) : Prop :=
  exists t, authorization r = Some t /\ verify (now w) t = inr current.

(** The stored users satisfy the unique constraint on [username]. *)
Definition unique_usernames (d : database) : Prop :=
  forall i j u v,
    users d !! i = Some u -> users d !! j = Some v ->
    User.username u = User.username v -> i = j.

(** The row a PUT /posts/{id} leaves: [updated_at] moves only when a column
    changed. *)
Definition updated_post (w : env) (p : Post.t) (title content : string) : Post.t :=
  Post.mk title content (Post.created_at p)
    (if String.eqb (Post.title p) title && String.eqb (Post.content p) content
     then Post.updated_at p else now w)
    (Post.author_id p).

(** What a flush can raise comes from the store. *)
Definition store_error (e : exn) : bool :=
  match e with
  | IntegrityError _ | DataError _ | OperationalError | ValueError => true
  | _ => false
  end.

End Vocabulary.

(** ** routes.py: the two list endpoints *)

(** The body of a list endpoint: a JSON array, or one of the bodies above. *)
Inductive listing :=
| json_list (items : list jvalue)
| not_a_list (c : content).

(** A list comprehension whose element expression may raise. *)
Fixpoint for_each {A B} (f : A -> M B) (l : list A) : M (list B) :=
  match l with
  | [] => ret []
  | x :: l' =>
      y <- f x ;;
      ys <- for_each f l' ;;
      ret (y :: ys)
  end.

(** [Post.query.all()]: the stored posts; no [ORDER BY], the order is the
    store's and no statement below depends on it. *)
Definition Post_query_all : M (list (Z * Post.t)) :=
  fun _ st => (inr (map_to_list (posts (db st))), st).

(** [Comment.query.filter_by(post_id=post_id).all()] *)
Definition Comment_query_filter_by_post_id (post_id : Z) : M (list (Z * Comment.t)) :=
  fun _ st =>
    (inr (filter (fun kv => Comment.post_id (snd kv) = post_id)
            (map_to_list (comments (db st)))), st).

Definition comment_json (id : Z) (comment : Comment.t) (author : User.t) : jvalue :=
  JObj [("id", JInt id);
        ("content", JStr (Comment.content comment));
        ("author", JStr (User.username author));
        ("created_at", JDate (Comment.created_at comment))].

Section Lists.
Context `{Externals}.

Definition get_posts : M (listing * Z) :=
  posts <- Post_query_all ;;
  items <- for_each
             (fun kv =>
                author <- author_of (Post.author_id (snd kv)) ;;
                ret (post_json (fst kv) (snd kv) author))
             posts ;;
  ret (json_list items, 200).

(** The argument is [request.args.get("post_id", type=int)]: [None] when the
    parameter is absent or is not an integer. *)
Definition get_comments (post_id : option Z) : M (listing * Z) :=
  match post_id with
  | None => ret (not_a_list (message "Post ID is required"), 400)
  | Some wanted =>
      if Z.eqb wanted 0
      then ret (not_a_list (message "Post ID is required"), 400)
      else
        comments <- Comment_query_filter_by_post_id wanted ;;
        match comments with
        | [] => ret (not_a_list (message "No comments found for this post."), 404)
        | _ =>
            items <- for_each
                       (fun kv =>
                          author <- author_of (Comment.author_id (snd kv)) ;;
                          ret (comment_json (fst kv) (snd kv) author))
                       comments ;;
            ret (json_list items, 200)
        end
  end.

(** A view function of any result type, on a session that starts empty. *)
Definition call {A} (view : M A) (r : request) (w : env) (d : database)
  : (exn + A) * state :=
  view (mkctx r w PNone) (mkstate d [] false).

(** A history of mutating requests, served one after the other. *)
Record step := mkstep {
  step_route : mutation;
  step_request : request;
  step_world : env
}.

Definition replay (steps : list step) (d : database) : database :=
  fold_left
    (fun d' s => snd (serve (route (step_route s)) (step_request s) (step_world s) d'))
    steps d.

(** ** What the stored rows satisfy *)

(** The declarations of models.py (uniqueness, foreign keys, lengths) and the
    validations of routes.py (no empty username, email, title or post
    content; every email was accepted by the validator). *)
Record consistent (d : database) : Prop := mkconsistent {
  usernames_unique : unique_usernames d;
  emails_unique :
    forall i j u v, users d !! i = Some u -> users d !! j = Some v ->
                    User.email u = User.email v -> i = j;
  users_valid :
    forall i u, users d !! i = Some u ->
      User.username u <> "" /\ User.email u <> ""
      /\ validate_email (User.email u) = None
      /\ (String.length (User.username u) <= 500)%nat
      /\ (String.length (User.email u) <= 500)%nat
      /\ (String.length (User.password_hash u) <= 500)%nat;
  posts_valid :
    forall i p, posts d !! i = Some p ->
      Post.title p <> "" /\ Post.content p <> ""
      /\ (String.length (Post.title p) <= 100)%nat
      /\ is_Some (users d !! Post.author_id p);
  comments_valid :
    forall i c, comments d !! i = Some c ->
      is_Some (posts d !! Comment.post_id c)
      /\ is_Some (users d !! Comment.author_id c)
}.

(** What the view functions check before they stage a write. *)
Definition validated (w : write) : Prop :=
  match w with
  | Add_User name mail _ => name <> "" /\ mail <> "" /\ validate_email mail = None
  | Add_Post title content _ => title <> "" /\ content <> ""
  | Set_Post_title _ v => v <> ""
  | Set_Post_content _ v => v <> ""
  | _ => True
  end.

(** The routes behind [@jwt_required()]. *)
Definition guarded (m : mutation) : bool :=
  match m with
  | Register => false
  | _ => true
  end.

End Lists.

(** The tables a mutating route leaves as they are. *)
Definition untouched (m : mutation) (d d' : database) : Prop :=
  match m with
  | Register => posts d' = posts d /\ comments d' = comments d
  | CreatePost | UpdatePost _ | DeletePost _ =>
      users d' = users d /\ comments d' = comments d
  | CreateComment | UpdateComment _ | DeleteComment _ =>
      users d' = users d /\ posts d' = posts d
  end.

(** No stored text holds U+0000. *)
Record nul_free (d : database) : Prop := mknul_free {
  users_nul_free :
    forall i u, users d !! i = Some u ->
      has_nul (User.username u) = false
      /\ has_nul (User.email u) = false
      /\ has_nul (User.password_hash u) = false;
  posts_nul_free :
    forall i p, posts d !! i = Some p ->
      has_nul (Post.title p) = false /\ has_nul (Post.content p) = false;
  comments_nul_free :
    forall i c, comments d !! i = Some c -> has_nul (Comment.content c) = false
}.

(** * Properties *)

(** ** Decimal numerals *)

Lemma to_int_not_nil (n : Z) :
  Z.to_int n <> Decimal.Pos Decimal.Nil /\ Z.to_int n <> Decimal.Neg Decimal.Nil.
Proof.
  destruct n as [|p|p]; cbn; split; intros E; try discriminate;
    injection E as E; exact (DecimalPos.Unsigned.to_uint_nonnil p E).
Qed.

Lemma int4in_str (n : Z) : int4in (str n) = Some n.
Proof.
  unfold int4in, str. destruct (to_int_not_nil n) as [Hp Hn].
  rewrite NilZero.isi by assumption. cbn. now rewrite DecimalZ.of_to.
Qed.


(** ** Queries *)

Section Query.
Context {A : Type} (P : A -> Prop) `{!forall x, Decision (P x)}.

Lemma query_first_Some (m : gmap Z A) (i : Z) (x : A) :
  query_first P m = Some (i, x) -> m !! i = Some x /\ P x.
Proof.
  unfold query_first. intros E.
  destruct (list_find _ _) as [[k [j y]]|] eqn:F; [|discriminate].
  cbn in E. injection E as -> ->.
  apply list_find_Some in F as (Hl & HP & _).
  split; [|exact HP].
  apply elem_of_map_to_list. eapply list_elem_of_lookup_2. exact Hl.
Qed.

Lemma query_first_None (m : gmap Z A) :
  query_first P m = None <-> forall i x, m !! i = Some x -> ~ P x.
Proof.
  unfold query_first. split.
  - intros E i x Hx.
    destruct (list_find _ _) as [[k [j y]]|] eqn:F; [discriminate|].
    apply list_find_None in F. rewrite Forall_forall in F.
    apply (F (i, x)). now apply elem_of_map_to_list.
  - intros Hno.
    destruct (list_find _ _) as [[k [j y]]|] eqn:F; [|reflexivity].
    apply list_find_Some in F as (Hl & HP & _).
    exfalso. apply (Hno j y); [|exact HP].
    apply elem_of_map_to_list. eapply list_elem_of_lookup_2. exact Hl.
Qed.

Lemma found_query_first (m : gmap Z A) :
  found (query_first P m) = true <-> exists i x, m !! i = Some x /\ P x.
Proof.
  split.
  - destruct (query_first P m) as [[i x]|] eqn:E; [|discriminate].
    intros _. exists i, x. now apply query_first_Some.
  - intros (i & x & Hx & HP).
    destruct (query_first P m) as [[j y]|] eqn:E; [reflexivity|].
    exfalso. exact (proj1 (query_first_None m) E i x Hx HP).
Qed.

Lemma not_found_query_first (m : gmap Z A) :
  found (query_first P m) = false <-> forall i x, m !! i = Some x -> ~ P x.
Proof.
  rewrite <- query_first_None.
  destruct (query_first P m); cbn; split; congruence.
Qed.

Lemma query_first_unique (m : gmap Z A) (i : Z) (x : A) :
  m !! i = Some x -> P x ->
  (forall j y, m !! j = Some y -> P y -> j = i) ->
  query_first P m = Some (i, x).
Proof.
  intros Hx HP Huniq.
  destruct (query_first P m) as [[j y]|] eqn:E.
  - apply query_first_Some in E as [Hy HPy].
    pose proof (Huniq j y Hy HPy) as ->. congruence.
  - exfalso. exact (proj1 (query_first_None m) E i x Hx HP).
Qed.
End Query.

(** ** Text *)

Lemma varchar_fits (n : nat) (s : string) :
  (String.length s <= n)%nat -> varchar n s = Some s.
Proof.
  intros Hle. unfold varchar.
  destruct (Nat.leb_spec (String.length s) n) as [_|Hgt]; [reflexivity|lia].
Qed.

Lemma keep_length (n : nat) (s : string) :
  (n <= String.length s)%nat -> String.length (keep n s) = n.
Proof.
  revert s. induction n as [|n IH]; intros s Hle; [reflexivity|].
  destruct s as [|a s]; cbn in *; [lia|]. rewrite IH; [reflexivity|lia].
Qed.

Lemma excess_spaces_end (n : nat) (s : string) :
  (n < String.length s)%nat -> all_spaces (excess n s) = true ->
  ends_with_space s = true.
Proof.
  assert (Hall : forall t, t <> EmptyString -> all_spaces t = true ->
                           ends_with_space t = true).
  { induction t as [|a t IH]; intros Hne Hs; [contradiction|].
    cbn in Hs. apply andb_true_iff in Hs as [Ha Ht].
    destruct t as [|b t]; [exact Ha|].
    change (ends_with_space (String b t) = true). apply IH; [discriminate|exact Ht]. }
  revert s. induction n as [|n IH]; intros s Hlt Hs.
  - cbn in Hs. apply Hall; [|exact Hs]. destruct s; [cbn in Hlt; lia|discriminate].
  - destruct s as [|a s]; [cbn in Hlt; lia|]. cbn in Hs, Hlt.
    assert (Hend : ends_with_space s = true) by (apply IH; [lia|exact Hs]).
    destruct s as [|b s]; [discriminate Hend|exact Hend].
Qed.

(** What a [String(n)] column stores has at most [n] characters, is the
    value itself unless that ended with a space, and is not empty unless
    the value was. *)
Lemma varchar_stored (n : nat) (s s' : string) :
  varchar n s = Some s' ->
  (String.length s' <= n)%nat
  /\ (s' = s \/ ends_with_space s = true)
  /\ (0 < n -> s <> EmptyString -> s' <> EmptyString)%nat.
Proof.
  unfold varchar.
  destruct (Nat.leb_spec (String.length s) n) as [Hle|Hgt].
  - intros [= <-]. repeat split; auto.
  - destruct (all_spaces (excess n s)) eqn:Hs; [|discriminate].
    intros [= <-]. rewrite keep_length by lia. repeat split; [lia|..].
    + right. exact (excess_spaces_end n s Hgt Hs).
    + intros Hn _ E. apply (f_equal String.length) in E.
      rewrite keep_length in E by lia. cbn in E. lia.
Qed.

Lemma varchar_refused (n : nat) (s : string) :
  (n < String.length s)%nat -> all_spaces (excess n s) = false -> varchar n s = None.
Proof.
  intros Hgt Hs. unfold varchar.
  destruct (Nat.leb_spec (String.length s) n) as [Hle|_]; [lia|]. now rewrite Hs.
Qed.

(** ** The view functions *)

Ltac view_unfold :=
  unfold serve, run, jwt_required, bind, ret, raise, try_except, get_json, ask,
    get_jwt_identity, index, index_post_id, stage, session_commit,
    session_rollback, Post_query_get, Comment_query_get,
    User_query_filter_by_username, author_of, create_access_token,
    refreshed_post, get; cbn.

Section Properties.
Context `{Externals}.

Lemma verify_issue (u : pyval) (t t' : Z) :
  t' <= t + ACCESS_EXPIRES -> verify t' (issue t u) = inr u.
Proof.
  intros Hle. unfold verify, issue. cbn.
  rewrite String.eqb_refl. cbn.
  destruct (Z.ltb_spec (t + ACCESS_EXPIRES) t') as [Hlt|_]; [lia|reflexivity].
Qed.

(** C10: an authenticated POST /comments whose body has no ["post_id"]
    member raises [KeyError] at [data["post_id"]], before the post is looked
    up; the exception is not caught, the caller gets the 500 page (neither
    201 nor 404), and no comment is created. *)
Theorem create_comment_without_post_id
    (r : request) (w : env) (d : database) (current : pyval) (data : body) :
  authenticated r w current ->
  json r = Some data ->
  body_post_id data = None ->
  run create_comment r w d = (inl (KeyError "post_id"), mkstate d [] false)
  /\ serve create_comment r w d = ((error_page, 500), d).
Proof.
  intros (t & Ht & Hv) Hj Hp.
  unfold create_comment. view_unfold.
  rewrite Ht, Hv. cbn. rewrite Hj, Hp. cbn. split; reflexivity.
Qed.


(** C2: a token verifies to the identity it was issued for (while it has
    not expired), and a login with the username of a stored user and a
    password that matches the stored hash is answered 200 with a token
    issued for that user's id. *)
Theorem login_issues_verifiable_token :
  (forall (u : pyval) (t t' : Z),
      t' <= t + ACCESS_EXPIRES -> verify t' (issue t u) = inr u)
  /\ (forall (r : request) (w : env) (d : database) (data : body)
             (name password : string) (id : Z) (u : User.t),
        json r = Some data ->
        get data "username" = Some name ->
        get data "password" = Some password ->
        unique_usernames d ->
        users d !! id = Some u ->
        User.username u = name ->
        check_password_hash (User.password_hash u) password = true ->
        serve login_user r w d
        = ((jsonify (JObj [("access_token", JToken (issue (now w) (PStr (str id))))]),
            200), d)
        /\ int4in (str id) = Some id).
Proof.
  split; [exact verify_issue|].
  intros r w d data name password id u Hj Hn Hp Huniq Hu Hname Hcheck.
  split; [|apply int4in_str].
  assert (Hq : query_first (fun x => User.username x = name) (users d) = Some (id, u)).
  { apply query_first_unique; [exact Hu|exact Hname|].
    intros j v Hv Hvn. apply (Huniq j id v u Hv Hu). congruence. }
  unfold get in *. unfold login_user. view_unfold. rewrite Hj. cbn.
  rewrite Hn, Hp. view_unfold. rewrite Hq. view_unfold.
  rewrite Hcheck. reflexivity.
Qed.


(** DELETE /posts/{id} never changes the comment table. *)
Lemma delete_post_comments (id : Z) (r : request) (w : env) (d : database) :
  comments (snd (serve (delete_post id) r w d)) = comments d.
Proof.
  unfold delete_post. view_unfold.
  destruct (authorization r) as [t|]; [|reflexivity].
  destruct (verify (now w) t) as [err|current]; [reflexivity|]. cbn.
  destruct (posts d !! id); cbn; [|reflexivity].
  destruct (store_down w); cbn; [reflexivity|].
  destruct (found _); reflexivity.
Qed.

(** C8: deleting a post does not cascade to its comments: after an
    authenticated DELETE /posts/{id} of a stored post that has a comment,
    every comment of that post is still stored, unchanged. *)
Theorem delete_post_keeps_comments
    (d : database) (id : Z) (p : Post.t) (r : request) (w : env) (current : pyval) :
  posts d !! id = Some p ->
  (exists j c, comments d !! j = Some c /\ Comment.post_id c = id) ->
  authenticated r w current ->
  forall j c, comments d !! j = Some c -> Comment.post_id c = id ->
              comments (snd (serve (delete_post id) r w d)) !! j = Some c.
Proof.
  intros _ _ _ j c Hc _. rewrite delete_post_comments. exact Hc.
Qed.

Lemma truthy_Some (s : string) : s <> "" -> truthy (Some s) = true.
Proof.
  intros Hs. cbn. destruct (String.eqb_spec s ""); [contradiction|reflexivity].
Qed.

Lemma set_posts_id (d : database) (id : Z) (p : Post.t) :
  posts d !! id = Some p -> set_posts d (<[id := p]> (posts d)) = d.
Proof.
  intros Hp. destruct d as [us ps cs]. unfold set_posts. cbn in *.
  now rewrite insert_id.
Qed.

(** C3, as amended: any authenticated user may update or delete any stored
    post, whoever its author is.  With the store reachable, a PUT with a
    non-empty title of at most 100 characters and non-empty content,
    neither holding U+0000, is answered 200 and applies the update; a
    DELETE of a post that no comment refers to is answered 200 and removes
    the post. *)
Theorem any_user_may_edit_or_delete_post
    (d : database) (id : Z) (p : Post.t) (r : request) (w : env) (current : pyval) :
  posts d !! id = Some p ->
  authenticated r w current ->
  store_down w = false ->
  (forall (data : body) (title content : string) (a : User.t),
      json r = Some data ->
      get data "title" = Some title ->
      get data "content" = Some content ->
      title <> "" -> content <> "" ->
      has_nul title = false -> has_nul content = false ->
      (String.length title <= 100)%nat ->
      users d !! Post.author_id p = Some a ->
      serve (update_post id) r w d
      = ((jsonify (JObj [("message", JStr "Post updated successfully!");
                         ("post", post_json id (updated_post w p title content) a)]),
          200),
         set_posts d (<[id := updated_post w p title content]> (posts d))))
  /\ ((forall j c, comments d !! j = Some c -> Comment.post_id c <> id) ->
      serve (delete_post id) r w d
      = ((message "Post deleted successfully!", 200),
         set_posts d (delete id (posts d)))).
Proof.
  intros Hp (t & Ht & Hv) Hup. split.
  - intros data title content a Hj Htitle Hcontent Hne1 Hne2 Hz1 Hz2 Hlen Ha.
    unfold get in *. unfold update_post. view_unfold.
    rewrite Ht, Hv. cbn. rewrite Hj. cbn. rewrite Htitle, Hcontent.
    fold (truthy (Some title)). fold (truthy (Some content)).
    rewrite (truthy_Some _ Hne1), (truthy_Some _ Hne2). cbn.
    rewrite Hp. cbn. rewrite Hup. cbn. rewrite Hp.
    unfold updated_post.
    destruct (String.eqb_spec (Post.title p) title) as [E1|N1]; cbn.
    + rewrite Hp.
      destruct (String.eqb_spec (Post.content p) content) as [E2|N2]; cbn.
      * subst. rewrite Hp. cbn. rewrite Ha. cbn.
        destruct p; cbn in *. rewrite (set_posts_id d id _ Hp). reflexivity.
      * rewrite Hz2. cbn. rewrite lookup_insert_eq. cbn. rewrite Ha. subst. reflexivity.
    + rewrite Hz1, (varchar_fits _ _ Hlen). cbn. rewrite lookup_insert_eq. cbn.
      destruct (String.eqb_spec (Post.content p) content) as [E2|N2]; cbn.
      * rewrite lookup_insert_eq. cbn. rewrite Ha. subst. reflexivity.
      * rewrite Hz2. cbn. rewrite lookup_insert_eq. cbn. rewrite Ha. cbn.
        unfold set_posts. cbn. rewrite insert_insert_eq. reflexivity.
  - intros Hnone.
    assert (Hf : found (query_first (fun c => Comment.post_id c = id) (comments d)) = false).
    { apply not_found_query_first. intros j c Hc. apply Hnone in Hc. tauto. }
    unfold delete_post. view_unfold.
    rewrite Ht, Hv. cbn. rewrite Hp. cbn. rewrite Hup. cbn. rewrite Hf. reflexivity.
Qed.

(** C5, as amended: with all fields present, an accepted email and an
    unused username, the handler never answers 400 for a duplicate email,
    it only checks the username.  When the email is unused as well (and the
    values hold no U+0000 and fit their columns, the id is fresh and the
    store is reachable) the user is persisted and the answer is 201; when
    the email is that of a stored user the unique constraint on
    [User.email] makes the commit fail: the answer is 500 and no user is
    persisted. *)
Theorem register_checks_username_only
    (r : request) (w : env) (d : database) (data : body)
    (name mail password : string) :
  json r = Some data ->
  get data "username" = Some name ->
  get data "email" = Some mail ->
  get data "password" = Some password ->
  name <> "" -> mail <> "" -> password <> "" ->
  validate_email mail = None ->
  (forall i u, users d !! i = Some u -> User.username u <> name) ->
  ((forall i u, users d !! i = Some u -> User.email u <> mail) ->
   has_nul name = false ->
   has_nul mail = false ->
   has_nul (generate_password_hash (salt w) password) = false ->
   (String.length name <= 500)%nat ->
   (String.length mail <= 500)%nat ->
   (String.length (generate_password_hash (salt w) password) <= 500)%nat ->
   users d !! nextval w = None ->
   store_down w = false ->
   serve register_user r w d
   = ((message "User created successfully!", 201),
      set_users d
        (<[nextval w := User.mk name mail (generate_password_hash (salt w) password)]>
           (users d))))
  /\ ((exists i u, users d !! i = Some u /\ User.email u = mail) ->
      status (fst (serve register_user r w d)) = 500
      /\ snd (serve register_user r w d) = d).
Proof.
  intros Hj Hn Hm Hp Hne1 Hne2 Hne3 Hvalid Hfresh.
  assert (Hq : query_first (fun x => User.username x = name) (users d) = None).
  { apply query_first_None. exact Hfresh. }
  unfold get in *. unfold register_user. view_unfold. rewrite Hj. cbn.
  rewrite Hn, Hm, Hp.
  fold (truthy (Some name)). fold (truthy (Some mail)). fold (truthy (Some password)).
  rewrite (truthy_Some _ Hne1), (truthy_Some _ Hne2), (truthy_Some _ Hne3). cbn.
  rewrite Hvalid. cbn. rewrite Hq. cbn.
  split.
  - intros Hmail Hz1 Hz2 Hz3 Hl1 Hl2 Hl3 Hid Hup.
    assert (Hq2 : query_first (fun x => User.email x = mail) (users d) = None).
    { apply query_first_None. exact Hmail. }
    rewrite Hz1. cbn. rewrite Hup. cbn. rewrite Hz1, Hz2, Hz3. cbn.
    rewrite (varchar_fits _ _ Hl1), (varchar_fits _ _ Hl2), (varchar_fits _ _ Hl3).
    rewrite Hq, Hq2, Hid. reflexivity.
  - intros Hdup.
    destruct (has_nul name) eqn:Hz1; cbn; [split; reflexivity|].
    destruct (store_down w); cbn; [split; reflexivity|].
    rewrite Hz1. cbn.
    destruct (has_nul mail); cbn; [split; reflexivity|].
    destruct (has_nul (generate_password_hash (salt w) password));
      cbn; [split; reflexivity|].
    destruct (varchar 500 name) as [name'|]; cbn; [|split; reflexivity].
    destruct (varchar 500 mail) as [mail'|] eqn:Hvm; cbn; [|split; reflexivity].
    destruct (varchar 500 (generate_password_hash (salt w) password)) as [hash'|];
      cbn; [|split; reflexivity].
    destruct (found (query_first (fun u => User.username u = name') (users d)));
      cbn; [split; reflexivity|].
    assert (mail' = mail) as ->.
    { destruct (varchar_stored _ _ _ Hvm) as (_ & [E|E] & _); [exact E|].
      rewrite (validate_email_trimmed mail Hvalid) in E. discriminate. }
    assert (Hq2 : found (query_first (fun x => User.email x = mail) (users d)) = true).
    { apply found_query_first. exact Hdup. }
    rewrite Hq2. cbn. split; reflexivity.
Qed.

Lemma flush_one_raises (e : env) (d : database) (w : write) (x : exn) :
  flush_one e d w = inl x -> store_error x = true.
Proof.
  intros E. destruct w; cbn in E; unfold to_integer in E;
    try discriminate E;
    repeat (case_match; simplify_eq; try done).
Qed.

Lemma flush_raises (e : env) (ws : list write) (d : database) (x : exn) :
  flush e d ws = inl x -> store_error x = true.
Proof.
  revert d. induction ws as [|w ws IH]; intros d; cbn; [discriminate|].
  destruct (flush_one e d w) as [y|d'] eqn:E.
  - intros [= <-]. exact (flush_one_raises _ _ _ _ E).
  - apply IH.
Qed.

(** [commit()] either raises a store error and leaves the rows as they
    were, or succeeds and empties the session. *)
Lemma session_commit_cases (c : ctx) (st : state) :
  (exists x, session_commit c st = (inl x, mkstate (db st) (session st) true)
             /\ store_error x = true)
  \/ (exists d', session_commit c st = (inr tt, mkstate d' [] (commit_failed st))).
Proof.
  unfold session_commit. destruct (store_down (world c)).
  - left. exists OperationalError. split; reflexivity.
  - destruct (flush _ _ _) as [x|d'] eqn:E.
    + left. exists x. split; [reflexivity|]. exact (flush_raises _ _ _ _ E).
    + right. exists d'. reflexivity.
Qed.

Ltac view_unfold_to_commit :=
  unfold serve, run, jwt_required, bind, ret, raise, try_except, get_json, ask,
    get_jwt_identity, index, index_post_id, stage, session_rollback,
    Post_query_get, Comment_query_get, User_query_filter_by_username,
    author_of, create_access_token, refreshed_post, get; cbn.

Ltac commit_step :=
  match goal with
  | |- context [session_commit ?c ?st] =>
      let x := fresh "x" in
      let Hx := fresh "Hx" in
      destruct (session_commit_cases c st) as [(x & -> & Hx)|(? & ->)];
      [destruct x; try discriminate Hx|]
  | E : session_commit ?c ?st = _ |- _ =>
      let x := fresh "x" in
      let Hx := fresh "Hx" in
      destruct (session_commit_cases c st) as [(x & E' & Hx)|(? & E')];
      rewrite E' in E; clear E';
      [destruct x; try discriminate Hx|]
  | _ => case_match
  end.

(** C6: for each of the seven mutating operations, when the commit raises
    the caller gets a 500 and the stored rows are those from before the
    request: nothing of the staged write is kept. *)
Theorem commit_failure_is_500_and_rolled_back
    (m : mutation) (r : request) (w : env) (d : database) :
  commit_failed (snd (run (route m) r w d)) = true ->
  status (fst (serve (route m) r w d)) = 500
  /\ snd (serve (route m) r w d) = d.
Proof.
  destruct m; cbn [route];
    unfold register_user, create_post, update_post, delete_post,
      create_comment, update_comment, delete_comment; view_unfold_to_commit;
    repeat (first [ progress (unfold ret, raise; cbn in * )
                  | progress simplify_eq
                  | commit_step ]); try done.
Qed.

(** ** Ownership of comments *)

Lemma set_comments_id (d : database) (id : Z) (c : Comment.t) :
  comments d !! id = Some c -> set_comments d (<[id := c]> (comments d)) = d.
Proof.
  intros Hc. destruct d as [us ps cs]. unfold set_comments. cbn in *.
  now rewrite insert_id.
Qed.

(** The ownership test compares the integer column with the identity of
    the token.  When the two are equal as Python values, the update goes
    through, and a body without ["content"] keeps the stored content. *)
Lemma update_comment_equal_identity
    (d : database) (id : Z) (c : Comment.t) (r : request) (w : env) (data : body) :
  comments d !! id = Some c ->
  authenticated r w (PInt (Comment.author_id c)) ->
  json r = Some data ->
  get data "content" = None ->
  store_down w = false ->
  serve (update_comment id) r w d = ((message "Comment updated successfully!", 200), d).
Proof.
  intros Hc (t & Ht & Hv) Hj Hnone Hup.
  unfold get in *. unfold update_comment. view_unfold.
  rewrite Ht, Hv. cbn. rewrite Hj. cbn. rewrite Hc. cbn.
  unfold py_ne. cbn. rewrite Z.eqb_refl. cbn.
  rewrite Hup, Hnone. cbn. rewrite Hc. cbn.
  rewrite String.eqb_refl. reflexivity.
Qed.

(** The identity of a token issued by [login_user] is a string, and a
    string is never equal to the integer [author_id]: with such a token
    PUT and DELETE /comments/{id} are answered 403 for every stored
    comment, the author's own included. *)
Lemma string_identity_owns_nothing
    (d : database) (id : Z) (c : Comment.t) (r : request) (w : env) (s : string) :
  comments d !! id = Some c ->
  authenticated r w (PStr s) ->
  (forall data, json r = Some data ->
     serve (update_comment id) r w d
     = ((message "You are not authorized to update this comment!", 403), d))
  /\ serve (delete_comment id) r w d
     = ((message "You are not authorized to delete this comment!", 403), d).
Proof.
  intros Hc (t & Ht & Hv). split.
  - intros data Hj. unfold update_comment. view_unfold.
    rewrite Ht, Hv. cbn. rewrite Hj. cbn. rewrite Hc. reflexivity.
  - unfold delete_comment. view_unfold.
    rewrite Ht, Hv. cbn. rewrite Hc. reflexivity.
Qed.

End Properties.

(** * The properties on the concrete deployment *)

#[local] Existing Instance Demo.externals.

Lemma demo_users1 :
  users Demo.db1 = {[ 1 := User.mk "alice" "a@x.com" "s1$pw1" ]}.
Proof. vm_compute. reflexivity. Qed.

Lemma demo_login_alice :
  Demo.token_of (Demo.login_as "alice" "pw1" 110 Demo.db2) = Some Demo.alice_token.
Proof. vm_compute. reflexivity. Qed.

Lemma demo_login_bob :
  Demo.token_of (Demo.login_as "bob" "pw2" 111 Demo.db2) = Some Demo.bob_token.
Proof. vm_compute. reflexivity. Qed.

Lemma demo_comment1 :
  comments Demo.db4 !! 1 = Some (Comment.mk "nice" 130 1 1)
  /\ posts Demo.db4 !! 1 = Some (Post.mk "t1" "c1" 120 120 1).
Proof. vm_compute. split; reflexivity. Qed.

Lemma login_issues_verifiable_token_witness :
  verify 1010 (issue 110 (PStr "1")) = inr (PStr "1")
  /\ serve login_user
       (Demo.anonymous (Demo.obj [("username", "alice"); ("password", "pw1")]))
       (Demo.at_time 110 0) Demo.db1
     = ((jsonify (JObj [("access_token", JToken (issue 110 (PStr (str 1))))]), 200),
        Demo.db1).
Proof.
  destruct (login_issues_verifiable_token (H := Demo.externals)) as [Hverify Hlogin].
  split.
  - apply Hverify. vm_compute. discriminate.
  - refine (proj1 (Hlogin
      (Demo.anonymous (Demo.obj [("username", "alice"); ("password", "pw1")]))
      (Demo.at_time 110 0) Demo.db1
      (Demo.obj [("username", "alice"); ("password", "pw1")])
      "alice" "pw1" 1 (User.mk "alice" "a@x.com" "s1$pw1")
      eq_refl _ _ _ _ eq_refl _)).
    + vm_compute. reflexivity.
    + vm_compute. reflexivity.
    + intros i j u v. rewrite demo_users1.
      intros [-> _]%lookup_singleton_Some [-> _]%lookup_singleton_Some _. reflexivity.
    + vm_compute. reflexivity.
    + vm_compute. reflexivity.
Defined.





Lemma delete_post_keeps_comments_witness :
  comments Demo.db4 !! 1 = Some (Comment.mk "nice" 130 1 1)
  /\ comments (snd (serve (delete_post 1) (Demo.bearer_no_body Demo.bob_token)
                      (Demo.at_time 140 0) Demo.db4)) !! 1
     = Some (Comment.mk "nice" 130 1 1).
Proof.
  split; [vm_compute; reflexivity|].
  apply (delete_post_keeps_comments Demo.db4 1 (Post.mk "t1" "c1" 120 120 1)
           (Demo.bearer_no_body Demo.bob_token) (Demo.at_time 140 0) (PStr "2")).
  - vm_compute. reflexivity.
  - exists 1, (Comment.mk "nice" 130 1 1). split; vm_compute; reflexivity.
  - exists Demo.bob_token. split; vm_compute; reflexivity.
  - vm_compute. reflexivity.
  - reflexivity.
Defined.

Lemma create_comment_without_post_id_witness :
  run create_comment (Demo.bearer Demo.alice_token (Demo.obj [("content", "nice")]))
    (Demo.at_time 130 1) Demo.db3
  = (inl (KeyError "post_id"), mkstate Demo.db3 [] false)
  /\ serve create_comment (Demo.bearer Demo.alice_token (Demo.obj [("content", "nice")]))
       (Demo.at_time 130 1) Demo.db3
     = ((error_page, 500), Demo.db3).
Proof.
  apply (create_comment_without_post_id
           (Demo.bearer Demo.alice_token (Demo.obj [("content", "nice")]))
           (Demo.at_time 130 1) Demo.db3 (PStr "1") (Demo.obj [("content", "nice")])).
  - exists Demo.alice_token. split; vm_compute; reflexivity.
  - reflexivity.
  - reflexivity.
Defined.

Lemma commit_failure_is_500_and_rolled_back_witness :
  commit_failed (snd (run (route (DeletePost 1)) (Demo.bearer_no_body Demo.bob_token)
                        (mkenv 140 "s1" 0 true) Demo.db3)) = true
  /\ status (fst (serve (route (DeletePost 1)) (Demo.bearer_no_body Demo.bob_token)
                    (mkenv 140 "s1" 0 true) Demo.db3)) = 500
  /\ snd (serve (route (DeletePost 1)) (Demo.bearer_no_body Demo.bob_token)
            (mkenv 140 "s1" 0 true) Demo.db3) = Demo.db3.
Proof.
  split; [vm_compute; reflexivity|].
  apply (commit_failure_is_500_and_rolled_back (DeletePost 1)
           (Demo.bearer_no_body Demo.bob_token) (mkenv 140 "s1" 0 true) Demo.db3).
  vm_compute. reflexivity.
Defined.

Lemma demo_scenario :
  status (fst (serve register_user
    (Demo.anonymous (Demo.obj [("username", "alice"); ("email", "a@x.com"); ("password", "pw1")]))
    (Demo.at_time 100 1) Demo.empty_db)) = 201
  /\ status (fst (serve register_user
    (Demo.anonymous (Demo.obj [("username", "bob"); ("email", "b@x.com"); ("password", "pw2")]))
    (Demo.at_time 101 2) Demo.db1)) = 201
  /\ status (fst (serve create_post
    (Demo.bearer Demo.alice_token (Demo.obj [("title", "t1"); ("content", "c1")]))
    (Demo.at_time 120 1) Demo.db2)) = 201
  /\ status (fst (serve create_comment
    (Demo.bearer Demo.alice_token (mkbody {[ "content" := "nice" ]} (Some 1)))
    (Demo.at_time 130 1) Demo.db3)) = 201.
Proof. vm_compute. repeat split; reflexivity. Qed.

Lemma demo_comments3 : comments Demo.db3 = ∅.
Proof. vm_compute. reflexivity. Qed.

Lemma any_user_may_edit_or_delete_post_witness :
  posts Demo.db3 !! 1 = Some (Post.mk "t1" "c1" 120 120 1)
  /\ serve (update_post 1)
       (Demo.bearer Demo.bob_token (Demo.obj [("title", "t2"); ("content", "c2")]))
       (Demo.at_time 140 0) Demo.db3
     = ((jsonify (JObj [("message", JStr "Post updated successfully!");
                        ("post", post_json 1 (Post.mk "t2" "c2" 120 140 1)
                                   (User.mk "alice" "a@x.com" "s1$pw1"))]), 200),
        set_posts Demo.db3 (<[1 := Post.mk "t2" "c2" 120 140 1]> (posts Demo.db3)))
  /\ serve (delete_post 1)
       (Demo.bearer Demo.bob_token (Demo.obj [("title", "t2"); ("content", "c2")]))
       (Demo.at_time 140 0) Demo.db3
     = ((message "Post deleted successfully!", 200),
        set_posts Demo.db3 (delete 1 (posts Demo.db3))).
Proof.
  split; [vm_compute; reflexivity|].
  destruct (any_user_may_edit_or_delete_post Demo.db3 1 (Post.mk "t1" "c1" 120 120 1)
              (Demo.bearer Demo.bob_token (Demo.obj [("title", "t2"); ("content", "c2")]))
              (Demo.at_time 140 0) (PStr "2")) as [Hput Hdelete].
  - vm_compute. reflexivity.
  - exists Demo.bob_token. split; vm_compute; reflexivity.
  - reflexivity.
  - split.
    + apply (Hput (Demo.obj [("title", "t2"); ("content", "c2")]) "t2" "c2"
               (User.mk "alice" "a@x.com" "s1$pw1")).
      * reflexivity.
      * vm_compute. reflexivity.
      * vm_compute. reflexivity.
      * discriminate.
      * discriminate.
      * reflexivity.
      * reflexivity.
      * vm_compute. lia.
      * vm_compute. reflexivity.
    + apply Hdelete. intros j c. rewrite demo_comments3, lookup_empty. discriminate.
Defined.

Lemma any_user_may_edit_or_delete_post_counterexample :
  (posts Demo.db4 !! 1 = Some (Post.mk "t1" "c1" 120 120 1)
   /\ verify 140 Demo.bob_token = inr (PStr "2")
   /\ serve (delete_post 1) (Demo.bearer_no_body Demo.bob_token)
        (Demo.at_time 140 0) Demo.db4
      = ((error_page, 500), Demo.db4))
  /\ (String.length Demo.long_title = 101%nat
      /\ serve (update_post 1)
           (Demo.bearer Demo.bob_token
              (Demo.obj [("title", Demo.long_title); ("content", "c2")]))
           (Demo.at_time 140 0) Demo.db3
         = ((jsonify (JObj [("message", JStr "Error updating post");
                            ("error", JStr "DataError: title")]), 500),
            Demo.db3)).
Proof. vm_compute. repeat split; reflexivity. Qed.

Lemma register_checks_username_only_witness :
  serve register_user
    (Demo.anonymous (Demo.obj [("username", "bob"); ("email", "b@x.com"); ("password", "pw2")]))
    (Demo.at_time 101 2) Demo.db1
  = ((message "User created successfully!", 201),
     set_users Demo.db1 (<[2 := User.mk "bob" "b@x.com" "s1$pw2"]> (users Demo.db1)))
  /\ (status (fst (serve register_user
         (Demo.anonymous
            (Demo.obj [("username", "bob"); ("email", "a@x.com"); ("password", "pw2")]))
         (Demo.at_time 101 2) Demo.db1)) = 500
      /\ snd (serve register_user
         (Demo.anonymous
            (Demo.obj [("username", "bob"); ("email", "a@x.com"); ("password", "pw2")]))
         (Demo.at_time 101 2) Demo.db1) = Demo.db1).
Proof.
  assert (Hfresh : forall i u, users Demo.db1 !! i = Some u -> User.username u <> "bob").
  { intros i u. rewrite demo_users1.
    intros [_ <-]%lookup_singleton_Some. cbn. discriminate. }
  split.
  - apply (proj1 (register_checks_username_only
             (Demo.anonymous
                (Demo.obj [("username", "bob"); ("email", "b@x.com"); ("password", "pw2")]))
             (Demo.at_time 101 2) Demo.db1
             (Demo.obj [("username", "bob"); ("email", "b@x.com"); ("password", "pw2")])
             "bob" "b@x.com" "pw2" eq_refl eq_refl eq_refl eq_refl
             ltac:(discriminate) ltac:(discriminate) ltac:(discriminate)
             eq_refl Hfresh)).
    + intros i u. rewrite demo_users1.
      intros [_ <-]%lookup_singleton_Some. cbn. discriminate.
    + reflexivity.
    + reflexivity.
    + vm_compute. reflexivity.
    + vm_compute. lia.
    + vm_compute. lia.
    + vm_compute. lia.
    + vm_compute. reflexivity.
    + reflexivity.
  - apply (proj2 (register_checks_username_only
             (Demo.anonymous
                (Demo.obj [("username", "bob"); ("email", "a@x.com"); ("password", "pw2")]))
             (Demo.at_time 101 2) Demo.db1
             (Demo.obj [("username", "bob"); ("email", "a@x.com"); ("password", "pw2")])
             "bob" "a@x.com" "pw2" eq_refl eq_refl eq_refl eq_refl
             ltac:(discriminate) ltac:(discriminate) ltac:(discriminate)
             eq_refl Hfresh)).
    exists 1, (User.mk "alice" "a@x.com" "s1$pw1"). split; vm_compute; reflexivity.
Defined.

Lemma register_checks_username_only_counterexample :
  validate_email "a@x.com" = None
  /\ query_first (fun u => User.username u = "bob") (users Demo.db1) = None
  /\ query_first (fun u => User.email u = "a@x.com") (users Demo.db1)
     = Some (1, User.mk "alice" "a@x.com" "s1$pw1")
  /\ serve register_user
       (Demo.anonymous
          (Demo.obj [("username", "bob"); ("email", "a@x.com"); ("password", "pw2")]))
       (Demo.at_time 101 2) Demo.db1
     = ((jsonify (JObj [("message", JStr "Internal Server Error");
                        ("error", JStr "IntegrityError: user.email")]), 500),
        Demo.db1).
Proof. vm_compute. repeat split; reflexivity. Qed.

(** C1: the author of a comment is refused.  alice logs in, her token
    carries the identity ["1"]; she writes comment 1, stored with
    [author_id = 1]; her PUT and her DELETE of that comment are answered 403
    and a later GET still shows the old content, because the handlers
    compare the integer [1] with the string ["1"]. *)
Theorem author_cannot_touch_own_comment :
  Demo.token_of (Demo.login_as "alice" "pw1" 110 Demo.db2) = Some Demo.alice_token
  /\ sub Demo.alice_token = PStr "1"
  /\ comments Demo.db4 !! 1 = Some (Comment.mk "nice" 130 1 1)
  /\ serve (update_comment 1)
       (Demo.bearer Demo.alice_token (Demo.obj [("content", "edited")]))
       (Demo.at_time 140 0) Demo.db4
     = ((message "You are not authorized to update this comment!", 403), Demo.db4)
  /\ serve (delete_comment 1) (Demo.bearer_no_body Demo.alice_token)
       (Demo.at_time 141 0) Demo.db4
     = ((message "You are not authorized to delete this comment!", 403), Demo.db4)
  /\ fst (serve (get_single_comment 1) (mkreq None None) (Demo.at_time 142 0) Demo.db4)
     = (jsonify (JObj [("id", JInt 1); ("content", JStr "nice");
                       ("author", JStr "alice"); ("created_at", JDate 130)]), 200).
Proof. vm_compute. repeat split; reflexivity. Qed.

(** C9: the same comparison refuses the author's PUT whose body has no
    ["content"] member: the answer is 403, not 200 (the content is
    unchanged). *)
Theorem author_update_without_content_refused :
  get (Demo.obj [("note", "x")]) "content" = None
  /\ serve (update_comment 1)
       (Demo.bearer Demo.alice_token (Demo.obj [("note", "x")]))
       (Demo.at_time 140 0) Demo.db4
     = ((message "You are not authorized to update this comment!", 403), Demo.db4).
Proof. vm_compute. repeat split; reflexivity. Qed.

(** * Further properties of routes.py *)

Section More.
Context `{Externals}.

(** ** What a request can write *)

Lemma session_commit_inv (c : ctx) (st : state) :
  (exists x, session_commit c st = (inl x, mkstate (db st) (session st) true)
             /\ store_error x = true)
  \/ (exists d', session_commit c st = (inr tt, mkstate d' [] (commit_failed st))
                 /\ store_down (world c) = false
                 /\ flush (world c) (db st) (session st) = inr d').
Proof.
  unfold session_commit. destruct (store_down (world c)).
  - left. exists OperationalError. split; reflexivity.
  - destruct (flush _ _ _) as [x|d'] eqn:E.
    + left. exists x. split; [reflexivity|]. exact (flush_raises _ _ _ _ E).
    + right. exists d'. repeat split; reflexivity.
Qed.

Ltac unfold_view :=
  unfold serve, run, call, jwt_required, bind, ret, raise, try_except, get_json,
    ask, get_jwt_identity, index, index_post_id, stage, session_rollback,
    Post_query_get, Comment_query_get, User_query_filter_by_username,
    author_of, create_access_token, refreshed_post, get; cbn.

Ltac unfold_routes :=
  unfold register_user, login_user, create_post, get_post, update_post,
    delete_post, create_comment, get_single_comment, update_comment,
    delete_comment;
  unfold_view.

Ltac commit_inv :=
  match goal with
  | |- context [session_commit ?c ?st] =>
      let x := fresh "x" in
      let Hx := fresh "Hx" in
      let Hup := fresh "Hup" in
      let Hflush := fresh "Hflush" in
      destruct (session_commit_inv c st) as [(x & -> & Hx)|(? & -> & Hup & Hflush)];
      [destruct x; try discriminate Hx|]
  | E : session_commit ?c ?st = _ |- _ =>
      let x := fresh "x" in
      let Hx := fresh "Hx" in
      let Hup := fresh "Hup" in
      let Hflush := fresh "Hflush" in
      let E' := fresh "E" in
      destruct (session_commit_inv c st) as [(x & E' & Hx)|(? & E' & Hup & Hflush)];
      rewrite E' in E; clear E';
      [destruct x; try discriminate Hx|]
  | _ => case_match
  end.

Ltac walk :=
  repeat (first [ progress (unfold ret, raise; cbn)
                | progress simplify_eq
                | commit_inv ]).

Lemma truthy_inv (v : option string) :
  truthy v = true -> exists s, v = Some s /\ s <> "".
Proof.
  destruct v as [s|]; cbn; [|discriminate].
  destruct (String.eqb_spec s ""); [discriminate|]. eauto.
Qed.

Ltac truthy_facts :=
  repeat match goal with
    | H : _ || _ = false |- _ => apply orb_false_elim in H; destruct H
    | H : negb _ = false |- _ => apply negb_false_iff in H
    | H : truthy _ = true |- _ =>
        let s := fresh "s" in
        let E := fresh "E" in
        let N := fresh "N" in
        apply truthy_inv in H; destruct H as (s & E & N);
        try rewrite E in *; simplify_eq
    end.

(** The rows after a mutating request are the rows before, or the result of
    flushing writes that the view function validated. *)
Lemma serve_route_writes (m : mutation) (r : request) (w : env) (d : database) :
  snd (serve (route m) r w d) = d
  \/ exists ws, Forall validated ws
                /\ flush w d ws = inr (snd (serve (route m) r w d)).
Proof.
  destruct m; cbn [route]; unfold_routes; walk; auto.
  all: right; eexists; (split; [|exact Hflush]); cbn; truthy_facts;
    unfold text; repeat constructor; cbn; congruence.
Qed.

(** ** The stored rows stay consistent *)

Lemma found_true {A} (o : option A) : found o = true -> is_Some o.
Proof. destruct o; [eauto|discriminate]. Qed.

Lemma found_false {A} (o : option A) : found o = false -> o = None.
Proof. destruct o; [discriminate|reflexivity]. Qed.

Lemma add_user_consistent (d : database) (k : Z) (u : User.t) :
  consistent d ->
  users d !! k = None ->
  (forall i v, users d !! i = Some v -> User.username v <> User.username u) ->
  (forall i v, users d !! i = Some v -> User.email v <> User.email u) ->
  User.username u <> "" -> User.email u <> "" ->
  validate_email (User.email u) = None ->
  (String.length (User.username u) <= 500)%nat ->
  (String.length (User.email u) <= 500)%nat ->
  (String.length (User.password_hash u) <= 500)%nat ->
  consistent (set_users d (<[k := u]> (users d))).
Proof.
  intros [Hu He Hv Hp Hc] Hk Hname Hmail N1 N2 V L1 L2 L3.
  split; unfold unique_usernames in *; cbn.
  - intros i j a b [[<- <-]|[Ni Ha]]%lookup_insert_Some
                   [[<- <-]|[Nj Hb]]%lookup_insert_Some E; try reflexivity.
    + exfalso. exact (Hname j b Hb (eq_sym E)).
    + exfalso. exact (Hname i a Ha E).
    + exact (Hu i j a b Ha Hb E).
  - intros i j a b [[<- <-]|[Ni Ha]]%lookup_insert_Some
                   [[<- <-]|[Nj Hb]]%lookup_insert_Some E; try reflexivity.
    + exfalso. exact (Hmail j b Hb (eq_sym E)).
    + exfalso. exact (Hmail i a Ha E).
    + exact (He i j a b Ha Hb E).
  - intros i a [[<- <-]|[Ni Ha]]%lookup_insert_Some; [tauto|exact (Hv i a Ha)].
  - intros i p Hi. destruct (Hp i p Hi) as (? & ? & ? & Ha).
    repeat split; try assumption. apply lookup_insert_is_Some'. now right.
  - intros i c Hi. destruct (Hc i c Hi) as (? & Ha).
    split; [assumption|]. apply lookup_insert_is_Some'. now right.
Qed.

Lemma set_post_consistent (d : database) (k : Z) (p : Post.t) :
  consistent d ->
  Post.title p <> "" -> Post.content p <> "" ->
  (String.length (Post.title p) <= 100)%nat ->
  is_Some (users d !! Post.author_id p) ->
  consistent (set_posts d (<[k := p]> (posts d))).
Proof.
  intros [Hu He Hv Hp Hc] N1 N2 L Ha.
  split; cbn; try assumption.
  - intros i q [[<- <-]|[Ni Hq]]%lookup_insert_Some; [tauto|exact (Hp i q Hq)].
  - intros i c Hi. destruct (Hc i c Hi) as (Hpost & ?).
    split; [|assumption]. apply lookup_insert_is_Some'. now right.
Qed.

Lemma set_comment_consistent (d : database) (k : Z) (c : Comment.t) :
  consistent d ->
  is_Some (posts d !! Comment.post_id c) ->
  is_Some (users d !! Comment.author_id c) ->
  consistent (set_comments d (<[k := c]> (comments d))).
Proof.
  intros [Hu He Hv Hp Hc] H1 H2.
  split; cbn; try assumption.
  intros i q [[<- <-]|[Ni Hq]]%lookup_insert_Some; [tauto|exact (Hc i q Hq)].
Qed.

Lemma flush_one_consistent (e : env) (d d' : database) (w : write) :
  consistent d -> validated w -> flush_one e d w = inr d' -> consistent d'.
Proof.
  intros Hd Hw E.
  destruct w as [name mail hash|title content author|content post author
                |id|id|id v|id v|id v]; cbn in E, Hw.
  - (* Add_User *)
    destruct (has_nul name || has_nul mail || has_nul hash); [discriminate|].
    destruct (varchar 500 name) as [name'|] eqn:V1; [|discriminate].
    destruct (varchar 500 mail) as [mail'|] eqn:V2; [|discriminate].
    destruct (varchar 500 hash) as [hash'|] eqn:V3; [|discriminate].
    destruct (found (query_first (fun u => User.username u = name') (users d)))
      eqn:F1; [discriminate|].
    destruct (found (query_first (fun u => User.email u = mail') (users d)))
      eqn:F2; [discriminate|].
    destruct (found (users d !! nextval e)) eqn:F3; [discriminate|].
    injection E as <-.
    destruct Hw as (N1 & N2 & V).
    destruct (varchar_stored _ _ _ V1) as (L1 & _ & K1).
    destruct (varchar_stored _ _ _ V2) as (L2 & [->|T2] & _);
      [|rewrite (validate_email_trimmed _ V) in T2; discriminate].
    destruct (varchar_stored _ _ _ V3) as (L3 & _ & _).
    apply add_user_consistent; cbn; try assumption.
    + now apply found_false.
    + exact (proj1 (not_found_query_first _ _) F1).
    + exact (proj1 (not_found_query_first _ _) F2).
    + apply K1; [lia|assumption].
  - (* Add_Post *)
    destruct (has_nul title || has_nul content || py_has_nul author); [discriminate|].
    destruct (varchar 100 title) as [title'|] eqn:V1; [|discriminate].
    destruct (to_integer "author_id" author) as [x|a]; [discriminate|].
    destruct (found (users d !! a)) eqn:F1; [|discriminate].
    destruct (found (posts d !! nextval e)); [discriminate|].
    injection E as <-.
    destruct Hw as (N1 & N2).
    destruct (varchar_stored _ _ _ V1) as (L1 & _ & K1).
    apply set_post_consistent; cbn; try assumption.
    + apply K1; [lia|assumption].
    + now apply found_true.
  - (* Add_Comment *)
    repeat (case_match; try discriminate). injection E as <-.
    apply set_comment_consistent; cbn; try assumption; now apply found_true.
  - (* Delete_Post *)
    case_match; [discriminate|]. injection E as <-.
    destruct Hd as [Hu He Hv Hp Hc]. split; cbn; try assumption.
    + intros i p [_ Hi]%lookup_delete_Some. exact (Hp i p Hi).
    + intros i c Hi. destruct (Hc i c Hi) as (Hpost & ?).
      split; [|assumption].
      rewrite lookup_delete_ne; [assumption|].
      intros ->.
      match goal with
      | Hf : found (query_first _ _) = false |- _ =>
          exact (proj1 (not_found_query_first _ _) Hf i c Hi eq_refl)
      end.
  - (* Delete_Comment *)
    injection E as <-.
    destruct Hd as [Hu He Hv Hp Hc]. split; cbn; try assumption.
    intros i c [_ Hi]%lookup_delete_Some. exact (Hc i c Hi).
  - (* Set_Post_title *)
    destruct (posts d !! id) as [p|] eqn:Hp; [|injection E as <-; assumption].
    destruct (String.eqb (Post.title p) v); [injection E as <-; assumption|].
    destruct (has_nul v); [discriminate|].
    destruct (varchar 100 v) as [v'|] eqn:V1; [|discriminate]. injection E as <-.
    destruct (varchar_stored _ _ _ V1) as (L1 & _ & K1).
    destruct (posts_valid d Hd id p Hp) as (? & ? & ? & ?).
    apply set_post_consistent; cbn; try assumption.
    apply K1; [lia|assumption].
  - (* Set_Post_content *)
    destruct (posts d !! id) as [p|] eqn:Hp; [|injection E as <-; assumption].
    destruct (String.eqb (Post.content p) v); [injection E as <-; assumption|].
    destruct (has_nul v); [discriminate|]. injection E as <-.
    destruct (posts_valid d Hd id p Hp) as (? & ? & ? & ?).
    apply set_post_consistent; cbn; assumption.
  - (* Set_Comment_content *)
    destruct (comments d !! id) as [c|] eqn:Hc; [|injection E as <-; assumption].
    destruct (String.eqb (Comment.content c) v); [injection E as <-; assumption|].
    destruct (has_nul v); [discriminate|]. injection E as <-.
    destruct (comments_valid d Hd id c Hc) as (? & ?).
    apply set_comment_consistent; cbn; assumption.
Qed.

Lemma flush_consistent (e : env) (ws : list write) (d d' : database) :
  consistent d -> Forall validated ws -> flush e d ws = inr d' -> consistent d'.
Proof.
  revert d. induction ws as [|w ws IH]; intros d Hd Hws; cbn.
  - intros [= <-]. exact Hd.
  - apply Forall_cons in Hws as [Hw Hws].
    destruct (flush_one e d w) as [x|d1] eqn:E; [discriminate|].
    intros Hrest. apply (IH d1); [|exact Hws|exact Hrest].
    exact (flush_one_consistent e d d1 w Hd Hw E).
Qed.

Lemma route_keeps_consistent (m : mutation) (r : request) (w : env) (d : database) :
  consistent d -> consistent (snd (serve (route m) r w d)).
Proof.
  intros Hd. destruct (serve_route_writes m r w d) as [->|(ws & Hws & E)].
  - exact Hd.
  - exact (flush_consistent w ws d _ Hd Hws E).
Qed.

(** X1: every mutating request keeps the stored rows consistent: usernames
    and emails stay unique, every post keeps an existing author and a
    non-empty title (at most 100 characters) and content, and every comment
    keeps an existing post and an existing author. *)
Theorem serve_keeps_consistent (m : mutation) (r : request) (w : env) (d : database) :
  consistent d -> consistent (snd (serve (route m) r w d)).
Proof.
  intros Hd. destruct (serve_route_writes m r w d) as [->|(ws & Hws & E)].
  - exact Hd.
  - exact (flush_consistent w ws d _ Hd Hws E).
Qed.

Lemma empty_consistent : consistent (mkdb ∅ ∅ ∅).
Proof.
  split; unfold unique_usernames; cbn; intros *; rewrite lookup_empty; discriminate.
Qed.

Lemma replay_consistent (steps : list step) (d : database) :
  consistent d -> consistent (replay steps d).
Proof.
  revert d. induction steps as [|s steps IH]; intros d Hd; cbn; [exact Hd|].
  apply IH. now apply route_keeps_consistent.
Qed.

(** X2: starting from an empty store, after any history of mutating requests
    no comment refers to a missing post or a missing user, and no post to a
    missing user: the routes never leave an orphan. *)
Theorem no_orphans_ever (steps : list step) :
  let d := replay steps (mkdb ∅ ∅ ∅) in
  (forall i c, comments d !! i = Some c ->
     is_Some (posts d !! Comment.post_id c) /\ is_Some (users d !! Comment.author_id c))
  /\ (forall i p, posts d !! i = Some p -> is_Some (users d !! Post.author_id p)).
Proof.
  cbn. pose proof (replay_consistent steps _ empty_consistent) as [Hu He Hv Hp Hc].
  split.
  - exact Hc.
  - intros i p Hi. now destruct (Hp i p Hi) as (_ & _ & _ & Ha).
Qed.

(** ** Which rows a request can touch *)

Ltac flushed :=
  match goal with
  | Hflush : flush _ _ _ = inr _ |- _ =>
      cbn in Hflush; unfold to_integer in Hflush;
      repeat (first [ progress simplify_eq | case_match ])
  end.

Lemma route_untouched (m : mutation) (r : request) (w : env) (d : database) :
  untouched m d (snd (serve (route m) r w d)).
Proof.
  destruct m; cbn [route untouched]; unfold_routes; walk; auto; flushed; cbn; auto.
Qed.

(** X3: each mutating route writes to its own table only: registration
    leaves posts and comments as they are, the post routes leave users and
    comments, the comment routes leave users and posts. *)
Theorem route_writes_own_table (m : mutation) (r : request) (w : env) (d : database) :
  let d' := snd (serve (route m) r w d) in
  match m with
  | Register => posts d' = posts d /\ comments d' = comments d
  | CreatePost | UpdatePost _ | DeletePost _ =>
      users d' = users d /\ comments d' = comments d
  | CreateComment | UpdateComment _ | DeleteComment _ =>
      users d' = users d /\ posts d' = posts d
  end.
Proof.
  destruct m; cbn [route]; unfold_routes; walk; auto; flushed; cbn; auto.
Qed.

(** X4: no route changes or removes a stored user: whatever the request, a
    user stored before it is stored after it, with the same username, email
    and password hash. *)
Theorem users_are_kept (m : mutation) (r : request) (w : env) (d : database)
    (i : Z) (u : User.t) :
  users d !! i = Some u ->
  users (snd (serve (route m) r w d)) !! i = Some u.
Proof.
  intros Hu. pose proof (route_untouched m r w d) as Hframe. cbn in Hframe.
  destruct m; try (destruct Hframe as [-> _]; exact Hu).
  clear Hframe. cbn [route]. unfold_routes; walk; auto; flushed; cbn.
  rewrite lookup_insert_ne; [exact Hu|].
  intros <-. match goal with
             | Hf : found (users d !! nextval w) = false |- _ =>
                 apply found_false in Hf; congruence
             end.
Qed.

(** X5: the six routes behind [@jwt_required()] do nothing for a request
    whose bearer token is absent or does not verify: nothing is written
    and the answer is neither 200 nor 201. *)
Theorem guarded_routes_need_a_token (m : mutation) (r : request) (w : env) (d : database) :
  guarded m = true ->
  (forall current, ~ authenticated r w current) ->
  snd (serve (route m) r w d) = d
  /\ status (fst (serve (route m) r w d)) <> 200
  /\ status (fst (serve (route m) r w d)) <> 201.
Proof.
  intros Hg Hno.
  assert (Hfail : authorization r = None
                  \/ exists t err, authorization r = Some t
                                  /\ verify (now w) t = inl err).
  { destruct (authorization r) as [t|] eqn:Ht; [right|now left].
    destruct (verify (now w) t) as [err|current] eqn:Hv; [eauto|].
    exfalso. apply (Hno current). exists t. split; [exact Ht|exact Hv]. }
  destruct m; try discriminate Hg; cbn [route];
    unfold create_post, update_post, delete_post, create_comment,
      update_comment, delete_comment, serve, run, jwt_required; cbn;
    destruct Hfail as [->|(t & err & -> & ->)]; cbn; repeat split; discriminate.
Qed.

(** ** login_user *)

(** X6: a login is answered 200 only for the username of a stored user whose
    stored hash accepts the password; the token in the answer carries that
    user's id as a decimal string.  A login never writes. *)
Theorem login_success_needs_credentials (r : request) (w : env) (d : database) :
  snd (serve login_user r w d) = d
  /\ (status (fst (serve login_user r w d)) = 200 ->
      exists data name password id u,
        json r = Some data
        /\ get data "username" = Some name
        /\ get data "password" = Some password
        /\ users d !! id = Some u
        /\ User.username u = name
        /\ check_password_hash (User.password_hash u) password = true
        /\ fst (serve login_user r w d)
           = (jsonify (JObj [("access_token", JToken (issue (now w) (PStr (str id))))]),
              200)).
Proof.
  unfold_routes.
  destruct (json r) as [data|] eqn:Hj; cbn; [|split; [reflexivity|discriminate]].
  destruct (members data !! "username") as [name|] eqn:Hn; cbn;
    [|split; [reflexivity|discriminate]].
  destruct (members data !! "password") as [password|] eqn:Hp; cbn;
    [|split; [reflexivity|discriminate]].
  destruct (query_first (fun u => User.username u = name) (users d))
    as [[id u]|] eqn:Hq; cbn;
    [|destruct (has_nul name); cbn; (split; [reflexivity|discriminate])].
  destruct (check_password_hash (User.password_hash u) password) eqn:Hc; cbn;
    [|split; [reflexivity|discriminate]].
  split; [reflexivity|]. intros _.
  apply query_first_Some in Hq as [Hu Hname].
  exists data, name, password, id, u. unfold get. repeat split; assumption.
Qed.

(** X7: a login is answered 400 exactly when the request is not JSON or
    the body lacks the ["username"] or the ["password"] key; an empty
    string is a present key and is not rejected with 400. *)
Theorem login_400_iff_key_missing (r : request) (w : env) (d : database) :
  status (fst (serve login_user r w d)) = 400
  <-> (json r = None
       \/ exists data, json r = Some data
                       /\ (get data "username" = None \/ get data "password" = None)).
Proof.
  unfold_routes. unfold has_key. cbn.
  destruct (json r) as [data|] eqn:Hj; cbn; [|split; [now left|reflexivity]].
  destruct (members data !! "username") as [name|] eqn:Hn; cbn.
  - destruct (members data !! "password") as [password|] eqn:Hp; cbn.
    + split.
      * destruct (query_first _ _) as [[id u]|]; cbn;
          [|destruct (has_nul name); cbn; discriminate].
        destruct (check_password_hash _ _); cbn; discriminate.
      * intros [?|(data' & [= <-] & [E|E])]; [discriminate|..];
          unfold get in E; congruence.
    + split; [|reflexivity]. intros _. right. exists data. unfold get. auto.
  - split; [|reflexivity]. intros _. right. exists data. unfold get. auto.
Qed.

(** ** register_user *)

Lemma truthy_false (v : option string) :
  truthy v = false <-> v = None \/ v = Some "".
Proof.
  destruct v as [s|]; cbn; [|split; auto].
  destruct (String.eqb_spec s "") as [->|N]; cbn.
  - split; auto.
  - split; [discriminate|]. intros [E|E]; [discriminate|]. congruence.
Qed.

(** X8: a registration in which the username, the email or the password is
    absent or is the empty string is answered 400 with the missing-fields
    message, and nothing is stored. *)
Theorem register_rejects_missing_field
    (r : request) (w : env) (d : database) (data : body) (key : string) :
  json r = Some data ->
  key = "username" \/ key = "email" \/ key = "password" ->
  get data key = None \/ get data key = Some "" ->
  serve register_user r w d
  = ((message "Missing required fields: username, email, or password", 400), d).
Proof.
  intros Hj Hkey Hmissing. apply truthy_false in Hmissing.
  unfold register_user.
  unfold serve, run, bind, get_json. cbn. rewrite Hj. cbn.
  destruct Hkey as [-> | [-> | ->]]; rewrite Hmissing; cbn;
    rewrite ?orb_true_r; reflexivity.
Qed.

(** X9: with the three fields present, an email the validator rejects is
    answered 400 with the validator's message, before the username is
    looked up: the answer is the same whether or not the username is taken,
    and nothing is stored. *)
Theorem register_rejects_invalid_email
    (r : request) (w : env) (d : database) (data : body)
    (name mail password reason : string) :
  json r = Some data ->
  get data "username" = Some name ->
  get data "email" = Some mail ->
  get data "password" = Some password ->
  name <> "" -> mail <> "" -> password <> "" ->
  validate_email mail = Some reason ->
  serve register_user r w d
  = ((message (String.append "Invalid email address: " reason), 400), d).
Proof.
  intros Hj Hn Hm Hp N1 N2 N3 Hbad.
  unfold get in *. unfold register_user. view_unfold. rewrite Hj. cbn.
  rewrite Hn, Hm, Hp.
  fold (truthy (Some name)). fold (truthy (Some mail)). fold (truthy (Some password)).
  rewrite (truthy_Some _ N1), (truthy_Some _ N2), (truthy_Some _ N3). cbn.
  rewrite Hbad. reflexivity.
Qed.

(** What a 201 from POST /register tells: the stored username and hash are
    what the [String(500)] columns made of the values. *)
Lemma register_201_inv (r : request) (w : env) (d : database) :
  status (fst (serve register_user r w d)) = 201 ->
  exists data name mail password name' hash',
    json r = Some data
    /\ get data "username" = Some name
    /\ get data "email" = Some mail
    /\ get data "password" = Some password
    /\ varchar 500 name = Some name'
    /\ varchar 500 (generate_password_hash (salt w) password) = Some hash'
    /\ (forall i u, users d !! i = Some u -> User.username u <> name')
    /\ users d !! nextval w = None
    /\ snd (serve register_user r w d)
       = set_users d (<[nextval w := User.mk name' mail hash']> (users d)).
Proof.
  unfold_routes; walk; try discriminate.
  intros _. flushed. cbn.
  match goal with
  | V : validate_email ?m = None, T : varchar 500 ?m = Some ?m' |- _ =>
      destruct (varchar_stored _ _ _ T) as (_ & [->|E] & _);
        [|rewrite (validate_email_trimmed _ V) in E; discriminate]
  end.
  do 6 eexists. unfold get.
  repeat (split; [eassumption || reflexivity|]).
  split.
  - match goal with
    | Hf : found (query_first (fun u => User.username u = _) (users d)) = false |- _ =>
        exact (proj1 (not_found_query_first _ _) Hf)
    end.
  - split; [|reflexivity]. now apply found_false.
Qed.

(** X10: registration and login compose: after a registration answered 201
    on a store with unique usernames, for a username and a password hash
    of at most 500 characters, a login with the same username and password
    is answered 200, with a token for the id the new user was given
    (provided the hasher accepts the password for the hash it made of it).
    A longer username that ends in spaces is stored cut to 500 characters,
    and the login that names it in full finds no user. *)
Theorem register_then_login
    (r r' : request) (w w' : env) (d : database) (data data' : body)
    (name password : string) :
  check_password_hash (generate_password_hash (salt w) password) password = true ->
  unique_usernames d ->
  json r = Some data ->
  get data "username" = Some name ->
  get data "password" = Some password ->
  (String.length name <= 500)%nat ->
  (String.length (generate_password_hash (salt w) password) <= 500)%nat ->
  status (fst (serve register_user r w d)) = 201 ->
  json r' = Some data' ->
  get data' "username" = Some name ->
  get data' "password" = Some password ->
  serve login_user r' w' (snd (serve register_user r w d))
  = ((jsonify (JObj [("access_token",
                      JToken (issue (now w') (PStr (str (nextval w)))))]), 200),
     snd (serve register_user r w d)).
Proof.
  intros Hsound Huniq Hj Hn Hp Lname Lhash H201 Hj' Hn' Hp'.
  destruct (register_201_inv r w d H201)
    as (data0 & name0 & mail & password0 & name' & hash' & Hj0 & Hn0 & Hm0 & Hp0
        & V1 & V2 & Hfresh & Hk & ->).
  assert (data0 = data) as -> by congruence.
  assert (name0 = name) as -> by congruence.
  assert (password0 = password) as -> by congruence.
  rewrite (varchar_fits _ _ Lname) in V1. injection V1 as <-.
  rewrite (varchar_fits _ _ Lhash) in V2. injection V2 as <-.
  set (u := User.mk name mail (generate_password_hash (salt w) password)).
  assert (Hq : query_first (fun x => User.username x = name)
                 (<[nextval w := u]> (users d)) = Some (nextval w, u)).
  { apply query_first_unique.
    - apply lookup_insert_eq.
    - reflexivity.
    - intros j v [[<- _]|[_ Hv]]%lookup_insert_Some Hname; [reflexivity|].
      exfalso. exact (Hfresh j v Hv Hname). }
  unfold get in *. unfold login_user. view_unfold. rewrite Hj'. cbn.
  rewrite Hn', Hp'. view_unfold. rewrite Hq. view_unfold.
  unfold u. cbn. rewrite Hsound. reflexivity.
Qed.

(** ** create_post, get_post *)


(** X12: POST /posts stores nothing when it refuses: an absent or empty
    title or content is answered 400, and a title whose characters after
    the first 100 are not all spaces makes the commit fail and is answered
    500 with the handler's own error body (for values without U+0000, which
    the driver refuses first).  An excess made of spaces only is cut by the
    [String(100)] column instead, and the post is stored. *)
Theorem create_post_refusals
    (r : request) (w : env) (d : database) (current : pyval) (data : body) :
  authenticated r w current ->
  json r = Some data ->
  (truthy (get data "title") = false \/ truthy (get data "content") = false ->
   serve create_post r w d = ((message "Title and content are required!", 400), d))
  /\ (forall title content,
        get data "title" = Some title ->
        get data "content" = Some content ->
        content <> "" ->
        (100 < String.length title)%nat ->
        all_spaces (excess 100 title) = false ->
        has_nul title = false -> has_nul content = false ->
        py_has_nul current = false ->
        store_down w = false ->
        serve create_post r w d
        = ((jsonify (JObj [("message", JStr "Error creating post");
                           ("error", JStr (exn_str (DataError "title")))]), 500), d)).
Proof.
  intros (t & Ht & Hv) Hj. split.
  - intros Hbad. unfold get in *. unfold create_post. view_unfold.
    rewrite Ht, Hv. cbn. rewrite Hj. cbn.
    fold (truthy (members data !! "title")).
    fold (truthy (members data !! "content")).
    destruct Hbad as [-> | ->]; cbn; rewrite ?orb_true_r; reflexivity.
  - intros title content Htitle Hcontent N2 Hlong Hexcess Z1 Z2 Z3 Hup.
    assert (N1 : title <> "").
    { intros ->. cbn in Hlong. lia. }
    unfold get in *. unfold create_post. view_unfold.
    rewrite Ht, Hv. cbn. rewrite Hj. cbn. rewrite Htitle, Hcontent.
    fold (truthy (Some title)). fold (truthy (Some content)).
    rewrite (truthy_Some _ N1), (truthy_Some _ N2). cbn.
    rewrite Hup. cbn. rewrite Z1, Z2, Z3. cbn.
    rewrite (varchar_refused _ _ Hlong Hexcess). reflexivity.
Qed.

(** X13: on consistent rows GET /posts/{id} never fails: it is answered 200
    with the stored fields and the author's username when the post is
    stored, 404 when it is not, and it writes nothing. *)
Theorem get_post_total (id : Z) (r : request) (w : env) (d : database) :
  consistent d ->
  match posts d !! id with
  | Some p =>
      exists a, users d !! Post.author_id p = Some a
                /\ serve (get_post id) r w d = ((jsonify (post_json id p a), 200), d)
  | None => serve (get_post id) r w d = ((message "Post not found!", 404), d)
  end.
Proof.
  intros Hd. unfold get_post. view_unfold.
  destruct (posts d !! id) as [p|] eqn:Hp; cbn; [|reflexivity].
  destruct (posts_valid d Hd id p Hp) as (_ & _ & _ & [a Ha]).
  exists a. rewrite Ha. split; reflexivity.
Qed.

(** X14: on consistent rows GET /comments/{id} never fails: 200 with the
    comment's id, content, author's username and creation time when it is
    stored, 404 when it is not, and it writes nothing. *)
Theorem get_single_comment_total (id : Z) (r : request) (w : env) (d : database) :
  consistent d ->
  match comments d !! id with
  | Some c =>
      exists a, users d !! Comment.author_id c = Some a
                /\ serve (get_single_comment id) r w d
                   = ((jsonify (comment_json id c a), 200), d)
  | None => serve (get_single_comment id) r w d = ((message "Comment not found!", 404), d)
  end.
Proof.
  intros Hd. unfold get_single_comment. view_unfold.
  destruct (comments d !! id) as [c|] eqn:Hc; cbn; [|reflexivity].
  destruct (comments_valid d Hd id c Hc) as (_ & [a Ha]).
  exists a. rewrite Ha. split; reflexivity.
Qed.

(** ** update_post, delete_post *)

(** X15: PUT /posts/{id} validates the body before it looks the post up: an
    absent or empty title or content is answered 400 whether or not the
    post exists; with both present, a missing post is answered 404.  Nothing
    is written in either case. *)
Theorem update_post_400_before_404
    (id : Z) (r : request) (w : env) (d : database) (current : pyval) (data : body) :
  authenticated r w current ->
  json r = Some data ->
  (truthy (get data "title") = false \/ truthy (get data "content") = false ->
   serve (update_post id) r w d
   = ((message "Title and content are required!", 400), d))
  /\ (truthy (get data "title") = true -> truthy (get data "content") = true ->
      posts d !! id = None ->
      serve (update_post id) r w d = ((message "Post not found!", 404), d)).
Proof.
  intros (t & Ht & Hv) Hj. split.
  - intros Hbad. unfold get in *. unfold update_post. view_unfold.
    rewrite Ht, Hv. cbn. rewrite Hj. cbn.
    fold (truthy (members data !! "title")).
    fold (truthy (members data !! "content")).
    destruct Hbad as [-> | ->]; cbn; rewrite ?orb_true_r; reflexivity.
  - intros H1 H2 Hnone. unfold get in *. unfold update_post. view_unfold.
    rewrite Ht, Hv. cbn. rewrite Hj. cbn.
    fold (truthy (members data !! "title")).
    fold (truthy (members data !! "content")).
    rewrite H1, H2. cbn. rewrite Hnone. reflexivity.
Qed.

Lemma update_post_posts (id : Z) (r : request) (w : env) (d : database) :
  posts (snd (serve (update_post id) r w d)) = posts d
  \/ exists p p',
       posts d !! id = Some p
       /\ posts (snd (serve (update_post id) r w d)) = <[id := p']> (posts d)
       /\ Post.author_id p' = Post.author_id p
       /\ Post.created_at p' = Post.created_at p.
Proof.
  unfold_routes; walk; auto; flushed; cbn in *; auto;
    repeat match goal with
      | Hp : <[id := _]> _ !! id = _ |- _ =>
          rewrite lookup_insert_eq in Hp; simplify_eq
      end; cbn;
    right; do 2 eexists;
    (split; [reflexivity || eassumption|]);
    rewrite ?insert_insert_eq; (split; [reflexivity|]); cbn; auto.
Qed.

(** X16: whatever the request, PUT /posts/{id} creates and removes no post,
    leaves every other post as it is, and never changes the author or the
    creation time of the post it updates. *)
Theorem update_post_frame (id : Z) (r : request) (w : env) (d : database) (j : Z) :
  let d' := snd (serve (update_post id) r w d) in
  match posts d !! j, posts d' !! j with
  | Some p, Some p' =>
      Post.author_id p' = Post.author_id p
      /\ Post.created_at p' = Post.created_at p
      /\ (j <> id -> p' = p)
  | None, None => True
  | _, _ => False
  end.
Proof.
  cbn zeta.
  destruct (update_post_posts id r w d) as [->|(p & p' & Hp & -> & Ha & Hc)].
  - destruct (posts d !! j); tauto.
  - destruct (decide (j = id)) as [->|Hne].
    + rewrite Hp, lookup_insert_eq. tauto.
    + rewrite lookup_insert_ne by congruence. destruct (posts d !! j); tauto.
Qed.

(** X17: DELETE /posts/{id} of a post that a comment refers to is refused:
    the commit fails on [Comment.post_id], the exception is not caught, the
    caller gets the 500 page and the post and its comments stay. *)
Theorem delete_post_with_comments_fails
    (id : Z) (p : Post.t) (k : Z) (c : Comment.t)
    (r : request) (w : env) (d : database) (current : pyval) :
  authenticated r w current ->
  posts d !! id = Some p ->
  comments d !! k = Some c ->
  Comment.post_id c = id ->
  serve (delete_post id) r w d = ((error_page, 500), d).
Proof.
  intros (t & Ht & Hv) Hp Hc Hpid.
  assert (Hf : found (query_first (fun x => Comment.post_id x = id) (comments d)) = true).
  { apply found_query_first. eauto. }
  unfold delete_post. view_unfold. rewrite Ht, Hv. cbn. rewrite Hp. cbn.
  destruct (store_down w); cbn; [reflexivity|]. rewrite Hf. reflexivity.
Qed.

(** X18: a 200 from DELETE /posts/{id} means that the post was stored, that
    no comment referred to it, and that it is gone: the other posts are
    untouched and GET /posts/{id} is answered 404 from then on. *)
Theorem delete_post_200
    (id : Z) (r r' : request) (w w' : env) (d : database) :
  status (fst (serve (delete_post id) r w d)) = 200 ->
  let d' := snd (serve (delete_post id) r w d) in
  is_Some (posts d !! id)
  /\ (forall k c, comments d !! k = Some c -> Comment.post_id c <> id)
  /\ posts d' = delete id (posts d)
  /\ serve (get_post id) r' w' d' = ((message "Post not found!", 404), d').
Proof.
  cbn zeta. intros H200.
  assert (Hinv : is_Some (posts d !! id)
                 /\ (forall k c, comments d !! k = Some c -> Comment.post_id c <> id)
                 /\ snd (serve (delete_post id) r w d) = set_posts d (delete id (posts d))).
  { revert H200. unfold delete_post. unfold_view; walk; try discriminate.
    intros _. flushed. cbn.
    split; [eauto|]. split; [|reflexivity].
    match goal with
    | Hf : found (query_first _ _) = false |- _ =>
        exact (proj1 (not_found_query_first _ _) Hf)
    end. }
  destruct Hinv as (Hsome & Hrefs & ->).
  repeat split; try assumption.
  unfold get_post. view_unfold. rewrite lookup_delete_eq. reflexivity.
Qed.

(** ** create_comment *)


(** X20: POST /comments looks the post up before it reads the content: for
    a post that is not stored the answer is 404 even when the body has no
    ["content"]; for a stored post a body without ["content"] raises
    [KeyError], which is not caught (500).  Nothing is stored in either
    case. *)
Theorem create_comment_refusals
    (r : request) (w : env) (d : database) (current : pyval) (data : body) (post : Z) :
  authenticated r w current ->
  json r = Some data ->
  body_post_id data = Some post ->
  (posts d !! post = None ->
   serve create_comment r w d = ((message "Post not found", 404), d))
  /\ (is_Some (posts d !! post) -> get data "content" = None ->
      call create_comment r w d = (inl (KeyError "content"), mkstate d [] false)
      /\ serve create_comment r w d = ((error_page, 500), d)).
Proof.
  intros (t & Ht & Hv) Hj Hpid. split.
  - intros Hnone. unfold create_comment. view_unfold.
    rewrite Ht, Hv. cbn. rewrite Hj. cbn. rewrite Hpid. cbn. rewrite Hnone. reflexivity.
  - intros [p Hp] Hcontent. unfold get in *. unfold create_comment, call. view_unfold.
    rewrite Ht, Hv. cbn. rewrite Hj. cbn. rewrite Hpid. cbn. rewrite Hp. cbn.
    rewrite Hcontent. cbn. split; reflexivity.
Qed.

(** ** update_comment, delete_comment *)

(** X21: with a token whose identity is a string, which is what
    [login_user] issues, PUT and DELETE /comments/{id} are answered 403 for
    every stored comment and write nothing. *)
Theorem comment_routes_refuse_string_identity
    (d : database) (id : Z) (c : Comment.t) (r : request) (w : env) (s : string)
    (data : body) :
  comments d !! id = Some c ->
  authenticated r w (PStr s) ->
  json r = Some data ->
  serve (update_comment id) r w d
  = ((message "You are not authorized to update this comment!", 403), d)
  /\ serve (delete_comment id) r w d
     = ((message "You are not authorized to delete this comment!", 403), d).
Proof.
  intros Hc (t & Ht & Hv) Hj. split.
  - unfold update_comment. view_unfold.
    rewrite Ht, Hv. cbn. rewrite Hj. cbn. rewrite Hc. reflexivity.
  - unfold delete_comment. view_unfold.
    rewrite Ht, Hv. cbn. rewrite Hc. reflexivity.
Qed.

(** X22: for a comment that is not stored, PUT and DELETE /comments/{id}
    are answered 404 whoever asks: the lookup comes before the ownership
    test. *)
Theorem comment_404_before_403
    (d : database) (id : Z) (r : request) (w : env) (current : pyval) (data : body) :
  comments d !! id = None ->
  authenticated r w current ->
  json r = Some data ->
  serve (update_comment id) r w d = ((message "Comment not found!", 404), d)
  /\ serve (delete_comment id) r w d = ((message "Comment not found!", 404), d).
Proof.
  intros Hc (t & Ht & Hv) Hj. split.
  - unfold update_comment. view_unfold.
    rewrite Ht, Hv. cbn. rewrite Hj. cbn. rewrite Hc. reflexivity.
  - unfold delete_comment. view_unfold.
    rewrite Ht, Hv. cbn. rewrite Hc. reflexivity.
Qed.

Lemma update_comment_comments (id : Z) (r : request) (w : env) (d : database) :
  comments (snd (serve (update_comment id) r w d)) = comments d
  \/ exists c c',
       comments d !! id = Some c
       /\ comments (snd (serve (update_comment id) r w d)) = <[id := c']> (comments d)
       /\ Comment.post_id c' = Comment.post_id c
       /\ Comment.author_id c' = Comment.author_id c
       /\ Comment.created_at c' = Comment.created_at c.
Proof.
  unfold_routes; walk; auto; flushed; cbn in *; auto;
    right; do 2 eexists;
    (split; [reflexivity || eassumption|]); (split; [reflexivity|]); cbn; auto.
Qed.

(** X23: whatever the request, PUT /comments/{id} creates and removes no
    comment, leaves every other comment as it is, and can change nothing
    but the content of the comment it updates: its post, author and
    creation time stay. *)
Theorem update_comment_frame (id : Z) (r : request) (w : env) (d : database) (j : Z) :
  let d' := snd (serve (update_comment id) r w d) in
  match comments d !! j, comments d' !! j with
  | Some c, Some c' =>
      Comment.post_id c' = Comment.post_id c
      /\ Comment.author_id c' = Comment.author_id c
      /\ Comment.created_at c' = Comment.created_at c
      /\ (j <> id -> c' = c)
  | None, None => True
  | _, _ => False
  end.
Proof.
  cbn zeta.
  destruct (update_comment_comments id r w d)
    as [->|(c & c' & Hc & -> & Hp & Ha & Ht)].
  - destruct (comments d !! j); tauto.
  - destruct (decide (j = id)) as [->|Hne].
    + rewrite Hc, lookup_insert_eq. tauto.
    + rewrite lookup_insert_ne by congruence. destruct (comments d !! j); tauto.
Qed.

(** X24: whatever the request, DELETE /comments/{id} leaves every other
    comment as it is, and when it is answered 200 the comment is gone: GET
    /comments/{id} is answered 404 from then on. *)
Theorem delete_comment_frame
    (id : Z) (r r' : request) (w w' : env) (d : database) :
  let d' := snd (serve (delete_comment id) r w d) in
  (forall j, j <> id -> comments d' !! j = comments d !! j)
  /\ (status (fst (serve (delete_comment id) r w d)) = 200 ->
      serve (get_single_comment id) r' w' d'
      = ((message "Comment not found!", 404), d')).
Proof.
  cbn zeta.
  assert (Hinv : snd (serve (delete_comment id) r w d) = d
                 \/ (snd (serve (delete_comment id) r w d)
                     = set_comments d (delete id (comments d)))).
  { unfold delete_comment. unfold_view; walk; auto. flushed. auto. }
  assert (H200 : status (fst (serve (delete_comment id) r w d)) = 200 ->
                 snd (serve (delete_comment id) r w d)
                 = set_comments d (delete id (comments d))).
  { unfold delete_comment. unfold_view; walk; try discriminate.
    intros _. flushed. reflexivity. }
  split.
  - intros j Hj. destruct Hinv as [-> | ->]; [reflexivity|].
    cbn. now rewrite lookup_delete_ne.
  - intros E. rewrite (H200 E).
    unfold get_single_comment. view_unfold. rewrite lookup_delete_eq. reflexivity.
Qed.

(** ** get_posts, get_comments *)

Lemma bind_inr {A B} (m : M A) (k : A -> M B) (c : ctx) (st st' : state) (a : A) :
  m c st = (inr a, st') -> bind m k c st = k a c st'.
Proof. intros E. unfold bind. now rewrite E. Qed.

Lemma for_each_ok {A B} (f : A -> M B) (R : A -> B -> Prop)
    (l : list A) (c : ctx) (st : state) :
  (forall x, x ∈ l -> exists y, f x c st = (inr y, st) /\ R x y) ->
  exists ys, for_each f l c st = (inr ys, st) /\ Forall2 R l ys.
Proof.
  induction l as [|x l IH]; intros Hf; cbn.
  - exists []. split; [reflexivity|constructor].
  - destruct (Hf x) as (y & Hy & Ry); [left|].
    destruct IH as (ys & Hys & Rys).
    { intros z Hz. apply Hf. now right. }
    exists (y :: ys). unfold bind, ret. rewrite Hy, Hys.
    split; [reflexivity|now constructor].
Qed.

Lemma Forall2_members {A B} (R : A -> B -> Prop) (l : list A) (k : list B) :
  Forall2 R l k ->
  (forall x, x ∈ l -> exists y, y ∈ k /\ R x y)
  /\ (forall y, y ∈ k -> exists x, x ∈ l /\ R x y).
Proof.
  induction 1 as [|x y l k Rxy _ [IH1 IH2]]; split.
  - intros x Hx. inversion Hx.
  - intros y Hy. inversion Hy.
  - intros z [->|Hz]%elem_of_cons.
    + exists y. split; [left|assumption].
    + destruct (IH1 z Hz) as (y' & ? & ?). exists y'. split; [now right|assumption].
  - intros z [->|Hz]%elem_of_cons.
    + exists x. split; [left|assumption].
    + destruct (IH2 z Hz) as (x' & ? & ?). exists x'. split; [now right|assumption].
Qed.

(** X25: on consistent rows GET /posts never fails: it is answered 200 with
    a list that has one entry per stored post (so an empty list when no
    post is stored), each with the post's fields and its author's
    username; it writes nothing. *)
Theorem get_posts_total (r : request) (w : env) (d : database) :
  consistent d ->
  exists items,
    call get_posts r w d = (inr (json_list items, 200), mkstate d [] false)
    /\ length items = size (posts d)
    /\ (forall item, item ∈ items <->
          exists id p a, posts d !! id = Some p
                         /\ users d !! Post.author_id p = Some a
                         /\ item = post_json id p a).
Proof.
  intros Hd.
  set (R := fun (kv : Z * Post.t) (item : jvalue) =>
              exists a, users d !! Post.author_id (snd kv) = Some a
                        /\ item = post_json (fst kv) (snd kv) a).
  destruct (for_each_ok
              (fun kv => author <- author_of (Post.author_id (snd kv)) ;;
                         ret (post_json (fst kv) (snd kv) author))
              R (map_to_list (posts d))
              (mkctx r w PNone) (mkstate d [] false)) as (items & Hrun & HR).
  { intros [id p] Hin%elem_of_map_to_list.
    destruct (posts_valid d Hd id p Hin) as (_ & _ & _ & [a Ha]).
    exists (post_json id p a). unfold bind, ret, author_of. cbn. rewrite Ha.
    split; [reflexivity|]. exists a. split; [exact Ha|reflexivity]. }
  exists items. split; [|split].
  - unfold get_posts, call.
    rewrite (bind_inr Post_query_all _
               (mkctx r w PNone) (mkstate d [] false) (mkstate d [] false)
               (map_to_list (posts d)) eq_refl).
    rewrite (bind_inr _ _ _ _ _ items Hrun). reflexivity.
  - rewrite <- (Forall2_length _ _ _ HR). apply length_map_to_list.
  - destruct (Forall2_members R _ _ HR) as [Hl Hr]. intros item. split.
    + intros Hin. destruct (Hr item Hin) as ([id p] & Hkv & a & Ha & ->).
      apply elem_of_map_to_list in Hkv. exists id, p, a. auto.
    + intros (id & p & a & Hp & Ha & ->).
      destruct (Hl (id, p)) as (y & Hy & a' & Ha' & ->);
        [now apply elem_of_map_to_list|].
      cbn in Ha'. assert (a' = a) as -> by congruence. exact Hy.
Qed.

(** X26: GET /comments is answered 400 when [post_id] is absent, is not an
    integer or is 0; for any other [post_id] it is answered 404 when no
    stored comment belongs to that post, also when the post itself is
    stored.  It writes nothing. *)
Theorem get_comments_400_404 (r : request) (w : env) (d : database) :
  call (get_comments None) r w d
  = (inr (not_a_list (message "Post ID is required"), 400), mkstate d [] false)
  /\ call (get_comments (Some 0)) r w d
     = (inr (not_a_list (message "Post ID is required"), 400), mkstate d [] false)
  /\ (forall wanted,
        wanted <> 0 ->
        (forall k c, comments d !! k = Some c -> Comment.post_id c <> wanted) ->
        call (get_comments (Some wanted)) r w d
        = (inr (not_a_list (message "No comments found for this post."), 404),
           mkstate d [] false)).
Proof.
  split; [reflexivity|]. split; [reflexivity|].
  intros wanted Hnz Hnone. unfold get_comments, call.
  destruct (Z.eqb_spec wanted 0) as [?|_]; [contradiction|].
  unfold bind, ret, Comment_query_filter_by_post_id. cbn.
  destruct (filter _ _) as [|[k c] rest] eqn:Hf; [reflexivity|].
  exfalso.
  assert (Hin : (k, c) ∈ filter (fun kv : Z * Comment.t => Comment.post_id (snd kv) = wanted)
                         (map_to_list (comments d))).
  { rewrite Hf. left. }
  apply list_elem_of_filter in Hin as [Hpid Hin].
  apply elem_of_map_to_list in Hin. exact (Hnone k c Hin Hpid).
Qed.

(** X27: on consistent rows, GET /comments for a post that has comments is
    answered 200 with a list that holds exactly the stored comments of that
    post, each with its id, content, author's username and creation
    time. *)
Theorem get_comments_lists_the_post
    (wanted : Z) (r : request) (w : env) (d : database) (k0 : Z) (c0 : Comment.t) :
  consistent d ->
  wanted <> 0 ->
  comments d !! k0 = Some c0 ->
  Comment.post_id c0 = wanted ->
  exists items,
    call (get_comments (Some wanted)) r w d
    = (inr (json_list items, 200), mkstate d [] false)
    /\ (forall item, item ∈ items <->
          exists k c a, comments d !! k = Some c
                        /\ Comment.post_id c = wanted
                        /\ users d !! Comment.author_id c = Some a
                        /\ item = comment_json k c a).
Proof.
  intros Hd Hnz Hc0 Hp0.
  set (found_rows := filter (fun kv : Z * Comment.t => Comment.post_id (snd kv) = wanted)
                       (map_to_list (comments d))).
  assert (Hrows : forall k c, (k, c) ∈ found_rows <->
                              comments d !! k = Some c /\ Comment.post_id c = wanted).
  { intros k c. unfold found_rows. rewrite list_elem_of_filter, elem_of_map_to_list.
    cbn. tauto. }
  set (R := fun (kv : Z * Comment.t) (item : jvalue) =>
              exists a, users d !! Comment.author_id (snd kv) = Some a
                        /\ item = comment_json (fst kv) (snd kv) a).
  destruct (for_each_ok
              (fun kv => author <- author_of (Comment.author_id (snd kv)) ;;
                         ret (comment_json (fst kv) (snd kv) author))
              R found_rows
              (mkctx r w PNone) (mkstate d [] false)) as (items & Hrun & HR).
  { intros [k c] [Hin _]%Hrows.
    destruct (comments_valid d Hd k c Hin) as (_ & [a Ha]).
    exists (comment_json k c a). unfold bind, ret, author_of. cbn. rewrite Ha.
    split; [reflexivity|]. exists a. split; [exact Ha|reflexivity]. }
  exists items. split.
  - unfold get_comments, call.
    destruct (Z.eqb_spec wanted 0) as [?|_]; [contradiction|].
    rewrite (bind_inr (Comment_query_filter_by_post_id wanted) _
               (mkctx r w PNone) (mkstate d [] false) (mkstate d [] false)
               found_rows eq_refl).
    clearbody found_rows.
    destruct found_rows as [|kv rest] eqn:Hf.
    + exfalso. assert (Hin : (k0, c0) ∈ @nil (Z * Comment.t)) by (apply Hrows; auto).
      inversion Hin.
    + rewrite (bind_inr _ _ _ _ _ items Hrun). reflexivity.
  - destruct (Forall2_members R _ _ HR) as [Hl Hr]. intros item. split.
    + intros Hin. destruct (Hr item Hin) as ([k c] & Hkv & a & Ha & ->).
      apply Hrows in Hkv as [Hk Hp]. exists k, c, a. auto.
    + intros (k & c & a & Hk & Hp & Ha & ->).
      destruct (Hl (k, c)) as (y & Hy & a' & Ha' & ->); [apply Hrows; auto|].
      cbn in Ha'. assert (a' = a) as -> by congruence. exact Hy.
Qed.

(** ** U+0000 *)

Lemma has_nul_keep (n : nat) (s : string) :
  has_nul s = false -> has_nul (keep n s) = false.
Proof.
  revert s. induction n as [|n IH]; intros s Hs; [reflexivity|].
  destruct s as [|a s]; cbn in *; [reflexivity|].
  apply orb_false_elim in Hs as [-> Hs]. cbn. now apply IH.
Qed.

Lemma varchar_nul (n : nat) (s s' : string) :
  varchar n s = Some s' -> has_nul s = false -> has_nul s' = false.
Proof.
  unfold varchar. destruct (Nat.leb _ _); [now intros [= <-]|].
  destruct (all_spaces _); [|discriminate].
  intros [= <-] Hs. now apply has_nul_keep.
Qed.

Lemma flush_one_nul_free (e : env) (d d' : database) (w : write) :
  nul_free d -> flush_one e d w = inr d' -> nul_free d'.
Proof.
  intros Hd E.
  destruct w as [name mail hash|title content author|content post author
                |id|id|id v|id v|id v]; cbn in E.
  - (* Add_User *)
    destruct (has_nul name || has_nul mail || has_nul hash) eqn:Z; [discriminate|].
    apply orb_false_elim in Z as [Z Z3]. apply orb_false_elim in Z as [Z1 Z2].
    destruct (varchar 500 name) as [name'|] eqn:V1; [|discriminate].
    destruct (varchar 500 mail) as [mail'|] eqn:V2; [|discriminate].
    destruct (varchar 500 hash) as [hash'|] eqn:V3; [|discriminate].
    repeat (case_match; try discriminate). injection E as <-.
    destruct Hd as [Hu Hp Hc]. split; cbn; try assumption.
    intros i u [[<- <-]|[_ Hi]]%lookup_insert_Some; [|exact (Hu i u Hi)].
    cbn. repeat split; eapply varchar_nul; eassumption.
  - (* Add_Post *)
    destruct (has_nul title || has_nul content || py_has_nul author) eqn:Z;
      [discriminate|].
    apply orb_false_elim in Z as [Z Z3]. apply orb_false_elim in Z as [Z1 Z2].
    destruct (varchar 100 title) as [title'|] eqn:V1; [|discriminate].
    repeat (case_match; try discriminate). injection E as <-.
    destruct Hd as [Hu Hp Hc]. split; cbn; try assumption.
    intros i p [[<- <-]|[_ Hi]]%lookup_insert_Some; [|exact (Hp i p Hi)].
    cbn. split; [eapply varchar_nul; eassumption|assumption].
  - (* Add_Comment *)
    destruct (has_nul content || py_has_nul author) eqn:Z; [discriminate|].
    apply orb_false_elim in Z as [Z1 Z2].
    repeat (case_match; try discriminate). injection E as <-.
    destruct Hd as [Hu Hp Hc]. split; cbn; try assumption.
    intros i c [[<- <-]|[_ Hi]]%lookup_insert_Some; [exact Z1|exact (Hc i c Hi)].
  - (* Delete_Post *)
    case_match; [discriminate|]. injection E as <-.
    destruct Hd as [Hu Hp Hc]. split; cbn; try assumption.
    intros i p [_ Hi]%lookup_delete_Some. exact (Hp i p Hi).
  - (* Delete_Comment *)
    injection E as <-.
    destruct Hd as [Hu Hp Hc]. split; cbn; try assumption.
    intros i c [_ Hi]%lookup_delete_Some. exact (Hc i c Hi).
  - (* Set_Post_title *)
    destruct (posts d !! id) as [p|] eqn:Hq; [|injection E as <-; assumption].
    destruct (String.eqb (Post.title p) v); [injection E as <-; assumption|].
    destruct (has_nul v) eqn:Z; [discriminate|].
    destruct (varchar 100 v) as [v'|] eqn:V1; [|discriminate]. injection E as <-.
    destruct Hd as [Hu Hp Hc]. split; cbn; try assumption.
    intros i q [[<- <-]|[_ Hi]]%lookup_insert_Some; [|exact (Hp i q Hi)].
    cbn. split; [exact (varchar_nul _ _ _ V1 Z)|exact (proj2 (Hp _ _ Hq))].
  - (* Set_Post_content *)
    destruct (posts d !! id) as [p|] eqn:Hq; [|injection E as <-; assumption].
    destruct (String.eqb (Post.content p) v); [injection E as <-; assumption|].
    destruct (has_nul v) eqn:Z; [discriminate|]. injection E as <-.
    destruct Hd as [Hu Hp Hc]. split; cbn; try assumption.
    intros i q [[<- <-]|[_ Hi]]%lookup_insert_Some; [|exact (Hp i q Hi)].
    cbn. split; [exact (proj1 (Hp _ _ Hq))|exact Z].
  - (* Set_Comment_content *)
    destruct (comments d !! id) as [c|] eqn:Hq; [|injection E as <-; assumption].
    destruct (String.eqb (Comment.content c) v); [injection E as <-; assumption|].
    destruct (has_nul v) eqn:Z; [discriminate|]. injection E as <-.
    destruct Hd as [Hu Hp Hc]. split; cbn; try assumption.
    intros i q [[<- <-]|[_ Hi]]%lookup_insert_Some; [exact Z|exact (Hc i q Hi)].
Qed.

Lemma flush_nul_free (e : env) (ws : list write) (d d' : database) :
  nul_free d -> flush e d ws = inr d' -> nul_free d'.
Proof.
  revert d. induction ws as [|w ws IH]; intros d Hd; cbn.
  - intros [= <-]. exact Hd.
  - destruct (flush_one e d w) as [x|d1] eqn:E; [discriminate|].
    intros Hrest. apply (IH d1); [|exact Hrest].
    exact (flush_one_nul_free e d d1 w Hd E).
Qed.

Lemma route_keeps_nul_free (m : mutation) (r : request) (w : env) (d : database) :
  nul_free d -> nul_free (snd (serve (route m) r w d)).
Proof.
  intros Hd. destruct (serve_route_writes m r w d) as [->|(ws & _ & E)].
  - exact Hd.
  - exact (flush_nul_free w ws d _ Hd E).
Qed.

Lemma empty_nul_free : nul_free (mkdb ∅ ∅ ∅).
Proof. split; cbn; intros *; rewrite lookup_empty; discriminate. Qed.

(** X29: no stored text ever holds U+0000: starting from an empty store,
    after any history of mutating requests no username, email, password
    hash, title or content holds it; the driver refuses every write that
    would store one. *)
Theorem stored_text_is_nul_free (steps : list step) :
  nul_free (replay steps (mkdb ∅ ∅ ∅)).
Proof.
  generalize empty_nul_free. generalize (mkdb ∅ ∅ ∅).
  induction steps as [|s steps IH]; intros d Hd; cbn; [exact Hd|].
  apply IH. now apply route_keeps_nul_free.
Qed.

Lemma nul_username_not_stored (d : database) (name : string) :
  nul_free d -> has_nul name = true ->
  query_first (fun u => User.username u = name) (users d) = None.
Proof.
  intros Hd Hz. apply query_first_None. intros i u Hi Hname.
  destruct (users_nul_free d Hd i u Hi) as (Hu & _). congruence.
Qed.

(** X30: on a store whose text holds no U+0000, a username that holds it
    is refused by the driver when it is looked up: POST /login lets the
    exception escape (500), POST /register catches it, rolls back and
    answers 500 with its own error body; nothing is stored. *)
Theorem nul_username_is_refused
    (r : request) (w : env) (d : database) (data : body) (name : string) :
  nul_free d ->
  json r = Some data ->
  get data "username" = Some name ->
  has_nul name = true ->
  (is_Some (get data "password") ->
   serve login_user r w d = ((error_page, 500), d))
  /\ (forall mail password,
        get data "email" = Some mail ->
        get data "password" = Some password ->
        mail <> "" -> password <> "" ->
        validate_email mail = None ->
        serve register_user r w d
        = ((jsonify (JObj [("message", JStr "Internal Server Error");
                           ("error", JStr (exn_str ValueError))]), 500), d)).
Proof.
  intros Hd Hj Hn Hz.
  pose proof (nul_username_not_stored d name Hd Hz) as Hq.
  assert (N1 : name <> "") by (intros ->; discriminate Hz).
  unfold get in *. split.
  - intros [password Hp]. unfold login_user. unfold_view. rewrite Hj. cbn.
    unfold has_key. rewrite Hn, Hp. cbn. rewrite Hq, Hz. reflexivity.
  - intros mail password Hm Hp N2 N3 Hv.
    unfold register_user. unfold_view. rewrite Hj. cbn. rewrite Hn, Hm, Hp.
    fold (truthy (Some name)). fold (truthy (Some mail)). fold (truthy (Some password)).
    rewrite (truthy_Some _ N1), (truthy_Some _ N2), (truthy_Some _ N3). cbn.
    rewrite Hv. cbn. rewrite Hq, Hz. reflexivity.
Qed.

(** ** register_user and login_user on JSON scalars *)



End More.

(** * The further properties on the concrete deployment *)

Lemma demo_consistent4 : consistent Demo.db4.
Proof.
  apply (route_keeps_consistent CreateComment).
  apply (route_keeps_consistent CreatePost).
  apply (route_keeps_consistent Register).
  apply (route_keeps_consistent Register).
  apply empty_consistent.
Qed.

Lemma demo_consistent3 : consistent Demo.db3.
Proof.
  apply (route_keeps_consistent CreatePost).
  apply (route_keeps_consistent Register).
  apply (route_keeps_consistent Register).
  apply empty_consistent.
Qed.

Lemma demo_consistent2 : consistent Demo.db2.
Proof.
  apply (route_keeps_consistent Register).
  apply (route_keeps_consistent Register).
  apply empty_consistent.
Qed.

Lemma demo_alice_authenticated (data : option body) (clock id : Z) :
  110 <= clock <= 1010 ->
  authenticated (mkreq (Some Demo.alice_token) data) (Demo.at_time clock id) (PStr "1").
Proof.
  intros Hc. exists Demo.alice_token. split; [reflexivity|].
  unfold verify. cbn. rewrite String.eqb_refl. cbn.
  destruct (Z.ltb_spec (110 + 900) clock); [lia|reflexivity].
Qed.

Lemma demo_bob_authenticated (data : option body) (clock id : Z) :
  111 <= clock <= 1011 ->
  authenticated (mkreq (Some Demo.bob_token) data) (Demo.at_time clock id) (PStr "2").
Proof.
  intros Hc. exists Demo.bob_token. split; [reflexivity|].
  unfold verify. cbn. rewrite String.eqb_refl. cbn.
  destruct (Z.ltb_spec (111 + 900) clock); [lia|reflexivity].
Qed.

Lemma serve_keeps_consistent_witness :
  consistent
    (snd (serve (route (UpdatePost 1))
            (Demo.bearer Demo.bob_token (Demo.obj [("title", "t2"); ("content", "c2")]))
            (Demo.at_time 140 0) Demo.db4)).
Proof.
  apply (serve_keeps_consistent (UpdatePost 1)). exact demo_consistent4.
Defined.

Lemma users_are_kept_witness :
  users (snd (serve (route Register)
                (Demo.anonymous
                   (Demo.obj [("username", "carol"); ("email", "c@x.com"); ("password", "pw3")]))
                (Demo.at_time 150 3) Demo.db4)) !! 1
  = Some (User.mk "alice" "a@x.com" "s1$pw1").
Proof.
  apply (users_are_kept Register). vm_compute. reflexivity.
Defined.

Lemma guarded_routes_need_a_token_witness :
  snd (serve (route CreatePost)
         (Demo.anonymous (Demo.obj [("title", "t1"); ("content", "c1")]))
         (Demo.at_time 120 1) Demo.db2) = Demo.db2
  /\ status (fst (serve (route CreatePost)
         (Demo.anonymous (Demo.obj [("title", "t1"); ("content", "c1")]))
         (Demo.at_time 120 1) Demo.db2)) <> 200
  /\ status (fst (serve (route CreatePost)
         (Demo.anonymous (Demo.obj [("title", "t1"); ("content", "c1")]))
         (Demo.at_time 120 1) Demo.db2)) <> 201.
Proof.
  apply (guarded_routes_need_a_token CreatePost).
  - reflexivity.
  - intros current (t & Ht & _). cbn in Ht. discriminate.
Defined.

Lemma register_rejects_missing_field_witness :
  serve register_user
    (Demo.anonymous
       (Demo.obj [("username", "carol"); ("email", "c@x.com"); ("password", "")]))
    (Demo.at_time 150 3) Demo.db2
  = ((message "Missing required fields: username, email, or password", 400), Demo.db2).
Proof.
  apply (register_rejects_missing_field _ _ _
           (Demo.obj [("username", "carol"); ("email", "c@x.com"); ("password", "")])
           "password").
  - reflexivity.
  - right. right. reflexivity.
  - right. vm_compute. reflexivity.
Defined.

Lemma register_rejects_invalid_email_witness :
  serve register_user
    (Demo.anonymous
       (Demo.obj [("username", "alice"); ("email", "nowhere"); ("password", "pw3")]))
    (Demo.at_time 150 3) Demo.db2
  = ((message "Invalid email address: no @-sign", 400), Demo.db2).
Proof.
  apply (register_rejects_invalid_email _ _ _
           (Demo.obj [("username", "alice"); ("email", "nowhere"); ("password", "pw3")])
           "alice" "nowhere" "pw3" "no @-sign").
  - reflexivity.
  - vm_compute. reflexivity.
  - vm_compute. reflexivity.
  - vm_compute. reflexivity.
  - discriminate.
  - discriminate.
  - discriminate.
  - vm_compute. reflexivity.
Defined.

Lemma register_then_login_witness :
  serve login_user
    (Demo.anonymous (Demo.obj [("username", "carol"); ("password", "pw3")]))
    (Demo.at_time 160 0)
    (snd (serve register_user
            (Demo.anonymous
               (Demo.obj [("username", "carol"); ("email", "c@x.com"); ("password", "pw3")]))
            (Demo.at_time 150 3) Demo.db2))
  = ((jsonify (JObj [("access_token", JToken (issue 160 (PStr (str 3))))]), 200),
     snd (serve register_user
            (Demo.anonymous
               (Demo.obj [("username", "carol"); ("email", "c@x.com"); ("password", "pw3")]))
            (Demo.at_time 150 3) Demo.db2)).
Proof.
  apply (register_then_login _ _ (Demo.at_time 150 3) (Demo.at_time 160 0) Demo.db2
           (Demo.obj [("username", "carol"); ("email", "c@x.com"); ("password", "pw3")])
           (Demo.obj [("username", "carol"); ("password", "pw3")])
           "carol" "pw3").
  - vm_compute. reflexivity.
  - exact (usernames_unique _ demo_consistent2).
  - reflexivity.
  - vm_compute. reflexivity.
  - vm_compute. reflexivity.
  - vm_compute. lia.
  - vm_compute. lia.
  - vm_compute. reflexivity.
  - reflexivity.
  - vm_compute. reflexivity.
  - vm_compute. reflexivity.
Defined.


Lemma create_post_refusals_witness :
  serve create_post
    (Demo.bearer Demo.alice_token (Demo.obj [("title", ""); ("content", "c1")]))
    (Demo.at_time 120 1) Demo.db2
  = ((message "Title and content are required!", 400), Demo.db2)
  /\ serve create_post
       (Demo.bearer Demo.alice_token
          (Demo.obj [("title", Demo.long_title); ("content", "c1")]))
       (Demo.at_time 120 1) Demo.db2
     = ((jsonify (JObj [("message", JStr "Error creating post");
                        ("error", JStr "DataError: title")]), 500), Demo.db2).
Proof.
  split.
  - apply (proj1 (create_post_refusals
                    (Demo.bearer Demo.alice_token
                       (Demo.obj [("title", ""); ("content", "c1")]))
                    (Demo.at_time 120 1) Demo.db2 (PStr "1")
                    (Demo.obj [("title", ""); ("content", "c1")])
                    (demo_alice_authenticated _ 120 1 ltac:(lia)) eq_refl)).
    left. vm_compute. reflexivity.
  - apply (proj2 (create_post_refusals
                    (Demo.bearer Demo.alice_token
                       (Demo.obj [("title", Demo.long_title); ("content", "c1")]))
                    (Demo.at_time 120 1) Demo.db2 (PStr "1")
                    (Demo.obj [("title", Demo.long_title); ("content", "c1")])
                    (demo_alice_authenticated _ 120 1 ltac:(lia)) eq_refl)
             Demo.long_title "c1").
    + vm_compute. reflexivity.
    + vm_compute. reflexivity.
    + discriminate.
    + vm_compute. lia.
    + vm_compute. reflexivity.
    + vm_compute. reflexivity.
    + reflexivity.
    + reflexivity.
    + reflexivity.
Defined.

(** The cut of [String(n)]: a title of 100 letters and one space is stored
    as the 100 letters (201), and a username of 500 letters and one space
    is stored as the 500 letters, so that the login that names it in full
    finds no user. *)
Lemma demo_title_cut :
  String.length Demo.padded_title = 101%nat
  /\ serve create_post
       (Demo.bearer Demo.alice_token
          (Demo.obj [("title", Demo.padded_title); ("content", "c1")]))
       (Demo.at_time 120 1) Demo.db2
     = ((message "Post created successfully!", 201),
        set_posts Demo.db2
          (<[1 := Post.mk (Demo.letters 100) "c1" 120 120 1]> (posts Demo.db2))).
Proof. vm_compute. split; reflexivity. Qed.

Lemma demo_username_cut :
  String.length Demo.padded_name = 501%nat
  /\ serve register_user
       (Demo.anonymous
          (Demo.obj [("username", Demo.padded_name); ("email", "c@x.com");
                     ("password", "pw3")]))
       (Demo.at_time 150 3) Demo.db2
     = ((message "User created successfully!", 201),
        set_users Demo.db2
          (<[3 := User.mk (Demo.letters 500) "c@x.com" "s1$pw3"]> (users Demo.db2)))
  /\ fst (serve login_user
            (Demo.anonymous
               (Demo.obj [("username", Demo.padded_name); ("password", "pw3")]))
            (Demo.at_time 160 0)
            (set_users Demo.db2
               (<[3 := User.mk (Demo.letters 500) "c@x.com" "s1$pw3"]>
                  (users Demo.db2))))
     = (message "Invalid credentials", 401).
Proof. vm_compute. repeat split; reflexivity. Qed.

(** The driver's refusal of U+0000: a comment whose content holds it is
    not stored, and the exception is not caught. *)
Lemma demo_nul_refused :
  serve create_comment
    (Demo.bearer Demo.alice_token
       (mkbody {[ "content" := String Ascii.zero "x" ]} (Some 1)))
    (Demo.at_time 130 1) Demo.db3
  = ((error_page, 500), Demo.db3)
  /\ serve create_post
       (Demo.bearer Demo.alice_token
          (Demo.obj [("title", String Ascii.zero "t"); ("content", "c1")]))
       (Demo.at_time 120 1) Demo.db2
     = ((jsonify (JObj [("message", JStr "Error creating post");
                        ("error", JStr "ValueError")]), 500), Demo.db2)
  /\ serve register_user
       (Demo.anonymous
          (Demo.obj [("username", String "b" (String "o" (String Ascii.zero "")));
                     ("email", "c@x.com"); ("password", "pw3")]))
       (Demo.at_time 150 3) Demo.db2
     = ((jsonify (JObj [("message", JStr "Internal Server Error");
                        ("error", JStr "ValueError")]), 500), Demo.db2).
Proof. vm_compute. repeat split; reflexivity. Qed.

Lemma get_post_total_witness :
  exists a, users Demo.db4 !! 1 = Some a
            /\ serve (get_post 1) (mkreq None None) (Demo.at_time 150 0) Demo.db4
               = ((jsonify (post_json 1 (Post.mk "t1" "c1" 120 120 1) a), 200), Demo.db4).
Proof.
  exact (get_post_total 1 (mkreq None None) (Demo.at_time 150 0) Demo.db4 demo_consistent4).
Defined.

Lemma get_single_comment_total_witness :
  exists a, users Demo.db4 !! 1 = Some a
            /\ serve (get_single_comment 1) (mkreq None None) (Demo.at_time 150 0) Demo.db4
               = ((jsonify (comment_json 1 (Comment.mk "nice" 130 1 1) a), 200), Demo.db4).
Proof.
  exact (get_single_comment_total 1 (mkreq None None) (Demo.at_time 150 0) Demo.db4
           demo_consistent4).
Defined.

Lemma update_post_400_before_404_witness :
  serve (update_post 7)
    (Demo.bearer Demo.bob_token (Demo.obj [("title", ""); ("content", "c2")]))
    (Demo.at_time 140 0) Demo.db3
  = ((message "Title and content are required!", 400), Demo.db3)
  /\ serve (update_post 7)
       (Demo.bearer Demo.bob_token (Demo.obj [("title", "t2"); ("content", "c2")]))
       (Demo.at_time 140 0) Demo.db3
     = ((message "Post not found!", 404), Demo.db3).
Proof.
  split.
  - apply (proj1 (update_post_400_before_404 7
                    (Demo.bearer Demo.bob_token (Demo.obj [("title", ""); ("content", "c2")]))
                    (Demo.at_time 140 0) Demo.db3 (PStr "2")
                    (Demo.obj [("title", ""); ("content", "c2")])
                    (demo_bob_authenticated _ 140 0 ltac:(lia)) eq_refl)).
    left. vm_compute. reflexivity.
  - apply (proj2 (update_post_400_before_404 7
                    (Demo.bearer Demo.bob_token (Demo.obj [("title", "t2"); ("content", "c2")]))
                    (Demo.at_time 140 0) Demo.db3 (PStr "2")
                    (Demo.obj [("title", "t2"); ("content", "c2")])
                    (demo_bob_authenticated _ 140 0 ltac:(lia)) eq_refl));
      vm_compute; reflexivity.
Defined.

Lemma delete_post_with_comments_fails_witness :
  serve (delete_post 1) (Demo.bearer_no_body Demo.alice_token) (Demo.at_time 140 0) Demo.db4
  = ((error_page, 500), Demo.db4).
Proof.
  apply (delete_post_with_comments_fails 1 (Post.mk "t1" "c1" 120 120 1)
           1 (Comment.mk "nice" 130 1 1) _ _ _ (PStr "1")).
  - apply demo_alice_authenticated. lia.
  - vm_compute. reflexivity.
  - vm_compute. reflexivity.
  - reflexivity.
Defined.

Lemma delete_post_200_witness :
  is_Some (posts Demo.db3 !! 1)
  /\ (forall k c, comments Demo.db3 !! k = Some c -> Comment.post_id c <> 1)
  /\ posts (snd (serve (delete_post 1) (Demo.bearer_no_body Demo.bob_token)
                   (Demo.at_time 140 0) Demo.db3))
     = delete 1 (posts Demo.db3)
  /\ serve (get_post 1) (mkreq None None) (Demo.at_time 150 0)
       (snd (serve (delete_post 1) (Demo.bearer_no_body Demo.bob_token)
               (Demo.at_time 140 0) Demo.db3))
     = ((message "Post not found!", 404),
        snd (serve (delete_post 1) (Demo.bearer_no_body Demo.bob_token)
               (Demo.at_time 140 0) Demo.db3)).
Proof.
  apply (delete_post_200 1 (Demo.bearer_no_body Demo.bob_token) (mkreq None None)
           (Demo.at_time 140 0) (Demo.at_time 150 0) Demo.db3).
  vm_compute. reflexivity.
Defined.


Lemma create_comment_refusals_witness :
  serve create_comment
    (Demo.bearer Demo.alice_token (mkbody ∅ (Some 9)))
    (Demo.at_time 130 1) Demo.db3
  = ((message "Post not found", 404), Demo.db3)
  /\ serve create_comment
       (Demo.bearer Demo.alice_token (mkbody ∅ (Some 1)))
       (Demo.at_time 130 1) Demo.db3
     = ((error_page, 500), Demo.db3).
Proof.
  split.
  - apply (proj1 (create_comment_refusals
                    (Demo.bearer Demo.alice_token (mkbody ∅ (Some 9)))
                    (Demo.at_time 130 1) Demo.db3 (PStr "1") (mkbody ∅ (Some 9)) 9
                    (demo_alice_authenticated _ 130 1 ltac:(lia)) eq_refl eq_refl)).
    vm_compute. reflexivity.
  - apply (proj2 (create_comment_refusals
                    (Demo.bearer Demo.alice_token (mkbody ∅ (Some 1)))
                    (Demo.at_time 130 1) Demo.db3 (PStr "1") (mkbody ∅ (Some 1)) 1
                    (demo_alice_authenticated _ 130 1 ltac:(lia)) eq_refl eq_refl)).
    + exists (Post.mk "t1" "c1" 120 120 1). vm_compute. reflexivity.
    + vm_compute. reflexivity.
Defined.

Lemma comment_routes_refuse_string_identity_witness :
  serve (update_comment 1)
    (Demo.bearer Demo.alice_token (Demo.obj [("content", "edited")]))
    (Demo.at_time 140 0) Demo.db4
  = ((message "You are not authorized to update this comment!", 403), Demo.db4)
  /\ serve (delete_comment 1)
       (Demo.bearer Demo.alice_token (Demo.obj [("content", "edited")]))
       (Demo.at_time 140 0) Demo.db4
     = ((message "You are not authorized to delete this comment!", 403), Demo.db4).
Proof.
  apply (comment_routes_refuse_string_identity Demo.db4 1 (Comment.mk "nice" 130 1 1)
           _ _ "1" (Demo.obj [("content", "edited")])).
  - vm_compute. reflexivity.
  - apply demo_alice_authenticated. lia.
  - reflexivity.
Defined.

Lemma comment_404_before_403_witness :
  serve (update_comment 5)
    (Demo.bearer Demo.bob_token (Demo.obj [("content", "edited")]))
    (Demo.at_time 140 0) Demo.db4
  = ((message "Comment not found!", 404), Demo.db4)
  /\ serve (delete_comment 5)
       (Demo.bearer Demo.bob_token (Demo.obj [("content", "edited")]))
       (Demo.at_time 140 0) Demo.db4
     = ((message "Comment not found!", 404), Demo.db4).
Proof.
  apply (comment_404_before_403 Demo.db4 5 _ _ (PStr "2")
           (Demo.obj [("content", "edited")])).
  - vm_compute. reflexivity.
  - apply demo_bob_authenticated. lia.
  - reflexivity.
Defined.

Lemma get_posts_total_witness :
  exists items,
    call get_posts (mkreq None None) (Demo.at_time 150 0) Demo.db4
    = (inr (json_list items, 200), mkstate Demo.db4 [] false)
    /\ length items = size (posts Demo.db4)
    /\ (forall item, item ∈ items <->
          exists id p a, posts Demo.db4 !! id = Some p
                         /\ users Demo.db4 !! Post.author_id p = Some a
                         /\ item = post_json id p a).
Proof.
  exact (get_posts_total (mkreq None None) (Demo.at_time 150 0) Demo.db4 demo_consistent4).
Defined.

Lemma get_comments_lists_the_post_witness :
  exists items,
    call (get_comments (Some 1)) (mkreq None None) (Demo.at_time 150 0) Demo.db4
    = (inr (json_list items, 200), mkstate Demo.db4 [] false)
    /\ (forall item, item ∈ items <->
          exists k c a, comments Demo.db4 !! k = Some c
                        /\ Comment.post_id c = 1
                        /\ users Demo.db4 !! Comment.author_id c = Some a
                        /\ item = comment_json k c a).
Proof.
  apply (get_comments_lists_the_post 1 (mkreq None None) (Demo.at_time 150 0) Demo.db4
           1 (Comment.mk "nice" 130 1 1) demo_consistent4).
  - discriminate.
  - vm_compute. reflexivity.
  - reflexivity.
Defined.

Lemma demo_nul_free2 : nul_free Demo.db2.
Proof.
  apply (route_keeps_nul_free Register).
  apply (route_keeps_nul_free Register).
  apply empty_nul_free.
Qed.

Lemma nul_username_is_refused_witness :
  serve login_user
    (Demo.anonymous
       (Demo.obj [("username", String Ascii.zero "carol"); ("password", "pw3")]))
    (Demo.at_time 160 0) Demo.db2
  = ((error_page, 500), Demo.db2)
  /\ serve register_user
       (Demo.anonymous
          (Demo.obj [("username", String Ascii.zero "carol"); ("email", "c@x.com");
                     ("password", "pw3")]))
       (Demo.at_time 150 3) Demo.db2
     = ((jsonify (JObj [("message", JStr "Internal Server Error");
                        ("error", JStr (exn_str ValueError))]), 500), Demo.db2).
Proof.
  split.
  - apply (proj1 (nul_username_is_refused
                    (Demo.anonymous
                       (Demo.obj [("username", String Ascii.zero "carol");
                                  ("password", "pw3")]))
                    (Demo.at_time 160 0) Demo.db2
                    (Demo.obj [("username", String Ascii.zero "carol");
                               ("password", "pw3")])
                    (String Ascii.zero "carol")
                    demo_nul_free2 eq_refl eq_refl eq_refl)).
    exists "pw3". reflexivity.
  - apply (proj2 (nul_username_is_refused
                    (Demo.anonymous
                       (Demo.obj [("username", String Ascii.zero "carol");
                                  ("email", "c@x.com"); ("password", "pw3")]))
                    (Demo.at_time 150 3) Demo.db2
                    (Demo.obj [("username", String Ascii.zero "carol");
                               ("email", "c@x.com"); ("password", "pw3")])
                    (String Ascii.zero "carol")
                    demo_nul_free2 eq_refl eq_refl eq_refl)
             "c@x.com" "pw3").
    + reflexivity.
    + reflexivity.
    + discriminate.
    + discriminate.
    + vm_compute. reflexivity.
Defined.

